(** * beancount-db: the Deutsche Bank current-account importer

    A shallow embedding of [beancount_db/__init__.py] and
    [beancount_db/current.py], and the properties of [CurrentAccount.extract],
    [CurrentAccount.identify] and [format_number] that the specification
    states.

    Python [str] values are [string]s whose characters are read as the code
    points 0..255.  Everything the importer takes from the Python standard
    library ([str.strip], [str.replace], [re], [datetime.strptime],
    [decimal.Decimal], [csv.DictReader]) is modelled by an executable
    definition restricted to that character range. *)

From Stdlib Require Import Ascii String ZArith Lia.
From stdpp Require Import base option list strings pretty gmap.

Open Scope string_scope.
Open Scope list_scope.

(** ** Characters and the [str] methods the importer calls *)

Definition code (c : ascii) : nat := nat_of_ascii c.

(** [str.isspace] on one character: TAB, LF, VT, FF, CR, the separators
    FS..US, the space, NEL and the no-break space. *)
Definition isspace (c : ascii) : bool :=
  let n := code c in
  (((9 <=? n) && (n <=? 13)) || ((28 <=? n) && (n <=? 32))
   || (n =? 133) || (n =? 160))%nat.

Definition isdigit (c : ascii) : bool :=
  let n := code c in ((48 <=? n) && (n <=? 57))%nat.

Definition newline : ascii := ascii_of_nat 10.

Fixpoint lstrip (s : string) : string :=
  match s with
  | String c s' => if isspace c then lstrip s' else s
  | EmptyString => EmptyString
  end.

Fixpoint string_rev' (acc s : string) : string :=
  match s with
  | String c s' => string_rev' (String c acc) s'
  | EmptyString => acc
  end.

Definition rstrip (s : string) : string :=
  string_rev' "" (lstrip (string_rev' "" s)).

(** [s.strip()] *)
Definition strip (s : string) : string := rstrip (lstrip s).

(** [s.replace(c, "")] for a one-character [c]. *)
Fixpoint remove_char (c : ascii) (s : string) : string :=
  match s with
  | String a s' =>
      if Ascii.eqb a c then remove_char c s' else String a (remove_char c s')
  | EmptyString => EmptyString
  end.

(** [sep.join(l)] *)
Fixpoint join (sep : string) (l : list string) : string :=
  match l with
  | [] => ""
  | [x] => x
  | x :: l' => x +:+ sep +:+ join sep l'
  end.

(** ** Regular expressions

    The three patterns of [CurrentAccount.__init__] are of the shape
    [^ body $], where [body] uses literals, [.], [\s], [\d], concatenation,
    [*] and [+].  A compiled pattern is its body with the MULTILINE flag and
    the number of capture groups; the two anchors are part of the matching
    functions below. *)

Inductive cset : Type :=
| CChar (c : ascii)   (* a literal character, as produced by re.escape *)
| CDot                (* .  : anything but a newline *)
| CSpace              (* \s *)
| CDigit.             (* \d *)

Definition cset_mem (k : cset) (c : ascii) : bool :=
  match k with
  | CChar a => Ascii.eqb a c
  | CDot => negb (Ascii.eqb c newline)
  | CSpace => isspace c
  | CDigit => isdigit c
  end.

Inductive regex : Type :=
| Void
| Eps
| Sym (k : cset)
| Seq (r1 r2 : regex)
| Alt (r1 r2 : regex)
| Star (r : regex).

Definition Plus (r : regex) : regex := Seq r (Star r).

(** [re.escape(s)]: the text [s], matched literally. *)
Fixpoint Lit (s : string) : regex :=
  match s with
  | String c s' => Seq (Sym (CChar c)) (Lit s')
  | EmptyString => Eps
  end.

Fixpoint nullable (r : regex) : bool :=
  match r with
  | Void => false
  | Eps => true
  | Sym _ => false
  | Seq r1 r2 => nullable r1 && nullable r2
  | Alt r1 r2 => nullable r1 || nullable r2
  | Star _ => true
  end.

Fixpoint deriv (c : ascii) (r : regex) : regex :=
  match r with
  | Void => Void
  | Eps => Void
  | Sym k => if cset_mem k c then Eps else Void
  | Seq r1 r2 =>
      if nullable r1
      then Alt (Seq (deriv c r1) r2) (deriv c r2)
      else Seq (deriv c r1) r2
  | Alt r1 r2 => Alt (deriv c r1) (deriv c r2)
  | Star r1 => Seq (deriv c r1) (Star r1)
  end.

(** The whole of [s] is in the language of [r]. *)
Fixpoint accepts (r : regex) (s : string) : bool :=
  match s with
  | EmptyString => nullable r
  | String c s' => accepts (deriv c r) s'
  end.

(** The language of a regular expression, as a relation. *)
Inductive Matches : regex -> string -> Prop :=
| MEps : Matches Eps ""
| MSym k c : cset_mem k c = true -> Matches (Sym k) (String c "")
| MSeq r1 r2 s1 s2 :
    Matches r1 s1 -> Matches r2 s2 -> Matches (Seq r1 r2) (s1 +:+ s2)
| MAltL r1 r2 s : Matches r1 s -> Matches (Alt r1 r2) s
| MAltR r1 r2 s : Matches r2 s -> Matches (Alt r1 r2) s
| MStar0 r : Matches (Star r) ""
| MStarS r c s1 s2 :
    Matches r (String c s1) -> Matches (Star r) s2 ->
    Matches (Star r) (String c s1 +:+ s2).

Record Pattern : Type := mkPattern {
  body : regex;
  multiline : bool;
  ngroups : nat
}.

(** Where [$] matches: with MULTILINE at the end of the text and before any
    newline; without it at the end and before a newline that ends the text. *)
Definition at_dollar (ml : bool) (rest : string) : bool :=
  match rest with
  | EmptyString => true
  | String c rest' =>
      Ascii.eqb c newline
      && (ml || match rest' with EmptyString => true | _ => false end)
  end.

(** [span ml r s]: the text matched by [r $] from the start of [s], if any.
    Python returns the span its backtracking search reaches first; this is
    the shortest span that ends where [$] matches.  They are the same when
    only one span ends at such a place, as on a line that went through
    [strip()]; of a MULTILINE pattern the importer only uses whether it
    matched. *)
Fixpoint span (ml : bool) (r : regex) (s : string) : option string :=
  if nullable r && at_dollar ml s then Some ""
  else match s with
       | EmptyString => None
       | String c s' => String c <$> span ml (deriv c r) s'
       end.

(** [p.match(s)]: the match starts at position 0, where [^] holds.
    The result is [group(0)]. *)
Definition re_match (p : Pattern) (s : string) : option string :=
  span (multiline p) (body p) s.

(** [p.search(s)]: a match may start at any position where [^] holds:
    position 0 and, with MULTILINE, after each newline. *)
Fixpoint search_from (bol : bool) (p : Pattern) (s : string) : option string :=
  match (if bol then re_match p s else None) with
  | Some g => Some g
  | None =>
      match s with
      | EmptyString => None
      | String c s' =>
          search_from (multiline p && Ascii.eqb c newline) p s'
      end
  end.

Definition re_search (p : Pattern) (s : string) : option string :=
  search_from true p s.

(** ** [decimal.Decimal]

    A decimal is a sign, a coefficient and an exponent, or one of the special
    values; [Decimal("50.00")] and [Decimal("50.0")] are different
    representations of the same number. *)

Inductive Decimal : Type :=
| Finite (neg : bool) (coeff : N) (exp : Z)
| Infinity (neg : bool)
| NaN (neg : bool) (signaling : bool) (payload : N).

Fixpoint take_digits (s : string) : string * string :=
  match s with
  | String c s' =>
      if isdigit c
      then let '(d, r) := take_digits s' in (String c d, r)
      else ("", s)
  | EmptyString => ("", "")
  end.

Fixpoint N_of_digits (acc : N) (s : string) : N :=
  match s with
  | String c s' => N_of_digits (acc * 10 + N.of_nat (code c - 48)) s'
  | EmptyString => acc
  end.

Definition lower (c : ascii) : ascii :=
  let n := code c in
  if ((65 <=? n) && (n <=? 90))%nat then ascii_of_nat (n + 32) else c.

Fixpoint lowercase (s : string) : string :=
  match s with
  | String c s' => String (lower c) (lowercase s')
  | EmptyString => EmptyString
  end.

Definition take_sign (s : string) : bool * string :=
  match s with
  | String "-" s' => (true, s')
  | String "+" s' => (false, s')
  | _ => (false, s)
  end.

(** The exponent part: nothing, or [E], an optional sign and digits. *)
Definition parse_exponent (s : string) : option Z :=
  match s with
  | EmptyString => Some 0%Z
  | String c s' =>
      if Ascii.eqb (lower c) "e" then
        let '(neg, s'') := take_sign s' in
        match take_digits s'' with
        | (String d ds, EmptyString) =>
            let v := Z.of_N (N_of_digits 0 (String d ds)) in
            Some (if neg then (- v)%Z else v)
        | _ => None
        end
      else None
  end.

(** A number: digits with an optional fractional part (at least one digit
    in all) and an optional exponent. *)
Definition parse_finite (s : string) : option (N * Z) :=
  let '(ip, r1) := take_digits s in
  let '(fp, r2) :=
    match r1 with
    | String "." r => take_digits r
    | _ => ("", r1)
    end in
  match ip +:+ fp with
  | EmptyString => None
  | String _ _ =>
      e ← parse_exponent r2;
      Some (N_of_digits 0 (ip +:+ fp), (e - Z.of_nat (String.length fp))%Z)
  end.

Definition parse_special (neg : bool) (s : string) : option Decimal :=
  let l := lowercase s in
  if String.eqb l "inf" || String.eqb l "infinity" then Some (Infinity neg)
  else
    let '(sig, l') :=
      match l with String "s" r => (true, r) | _ => (false, l) end in
    match l' with
    | String "n" (String "a" (String "n" diag)) =>
        match take_digits diag with
        | (ds, EmptyString) => Some (NaN neg sig (N_of_digits 0 ds))
        | _ => None
        end
    | _ => None
    end.

(** [Decimal(s)] for a [str]: surrounding whitespace and underscores are
    dropped, then the numeric-string grammar of the decimal module applies;
    [None] stands for [decimal.InvalidOperation].  The conversion is exact;
    the exponent limits of the C implementation are not modelled. *)
Definition Decimal_of_string (s : string) : option Decimal :=
  let '(neg, t) := take_sign (remove_char "_" (strip s)) in
  match parse_finite t with
  | Some (c, e) => Some (Finite neg c e)
  | None => parse_special neg t
  end.

(** Numeric equality of decimals ([==] in Python; a NaN equals nothing). *)
Definition Decimal_eqb (a b : Decimal) : bool :=
  match a, b with
  | Finite n1 c1 e1, Finite n2 c2 e2 =>
      let m := Z.min e1 e2 in
      let v1 := (Z.of_N c1 * 10 ^ (e1 - m))%Z in
      let v2 := (Z.of_N c2 * 10 ^ (e2 - m))%Z in
      ((if n1 then - v1 else v1) =? (if n2 then - v2 else v2))%Z
  | Infinity n1, Infinity n2 => Bool.eqb n1 n2
  | _, _ => false
  end.

(** ** [datetime.date] and [datetime.strptime] *)

Record date : Type := mkdate { year : nat; month : nat; day : nat }.

Definition is_leap (y : nat) : bool :=
  ((y mod 4 =? 0) && (negb (y mod 100 =? 0) || (y mod 400 =? 0)))%nat.

Definition days_in_month (y m : nat) : nat :=
  match m with
  | 2 => if is_leap y then 29 else 28
  | 4 | 6 | 9 | 11 => 30
  | _ => 31
  end.

(** The pieces of [s] between the occurrences of [sep]. *)
Fixpoint split_on (sep : ascii) (s : string) : list string :=
  match s with
  | EmptyString => [""]
  | String c s' =>
      if Ascii.eqb c sep then "" :: split_on sep s'
      else match split_on sep s' with
           | x :: l => String c x :: l
           | [] => [String c ""]
           end
  end.

Definition all_digits (s : string) : bool :=
  match take_digits s with (_, EmptyString) => true | _ => false end.

Definition nat_of_digits (s : string) : nat := N.to_nat (N_of_digits 0 s).

(** [%m]: [1[0-2]|0[1-9]|[1-9]]. *)
Definition parse_m (t : string) : option nat :=
  let n := nat_of_digits t in
  if all_digits t
     && ((1 <=? String.length t) && (String.length t <=? 2)
         && (1 <=? n) && (n <=? 12))%nat
  then Some n else None.

(** [%d]: [3[01]|[12]\d|0[1-9]|[1-9]| [1-9]]. *)
Definition parse_d (t : string) : option nat :=
  let t' := match t with String " " (String c "") => String c "" | _ => t end in
  let n := nat_of_digits t' in
  if all_digits t'
     && ((1 <=? String.length t') && (String.length t' <=? 2)
         && (1 <=? n) && (n <=? 31))%nat
  then Some n else None.

(** [%Y]: [\d\d\d\d]. *)
Definition parse_Y (t : string) : option nat :=
  if all_digits t && (String.length t =? 4)%nat
  then Some (nat_of_digits t) else None.

Definition DATE_FORMAT : string := "%m/%d/%Y".

(** [datetime.strptime(s, DATE_FORMAT).date()]: the three fields, separated
    by slashes, with nothing left over, forming a date of the calendar
    (years 1 to 9999).  [None] stands for [ValueError]. *)
Definition strptime (s : string) : option date :=
  match split_on "/" s with
  | [tm; td; ty] =>
      m ← parse_m tm;
      d ← parse_d td;
      y ← parse_Y ty;
      if ((1 <=? y) && (d <=? days_in_month y m))%nat
      then Some (mkdate y m d) else None
  | _ => None
  end.

(** ** The beancount records the importer builds *)

Record Amount : Type := mkAmount { number : Decimal; acurrency : string }.

(** [data.Posting(account, units, cost, price, flag, meta)]; the importer
    passes [None] for the last four. *)
Record Posting : Type := mkPosting {
  paccount : string;
  units : Amount;
  cost : option Amount;
  price : option Amount;
  pflag : option ascii;
  pmeta : option (string * nat)
}.

(** [data.Transaction]; [meta] is [new_metadata(filename, lineno)]. *)
Record Transaction : Type := mkTransaction {
  meta : string * nat;
  tdate : date;
  flag : ascii;
  payee : string;
  narration : string;
  tags : gset string;
  links : gset string;
  postings : list Posting
}.

(** [ImporterProtocol.FLAG], which is [flags.FLAG_OKAY]. *)
Definition FLAG : ascii := "*"%char.

(** ** Exceptions *)

Inductive exn : Type :=
| InvalidFormatError (message : string) (lineno : option nat)
| ValueError         (* datetime.strptime on text that is no date *)
| InvalidOperation   (* decimal.Decimal on text that is no number *)
| TypeError
| AttributeError
| KeyError (key : string).

(** [InvalidFormatError.__init__]: the text the exception carries. *)
Definition exn_text (message : string) (lineno : option nat) : string :=
  match lineno with
  | Some n => message +:+ " (line " +:+ pretty n +:+ ")"
  | None => message
  end.

(** ** [format_number] and values that are a [str] or [None] *)

Definition pystr : Type := option string.

(** Truth value of a [str] or [None]. *)
Definition truthy (v : pystr) : bool :=
  match v with
  | Some (String _ _) => true
  | _ => false
  end.

Definition pystr_eqb (a b : pystr) : bool := bool_decide (a = b).

(** An f-string field holding a [str] or [None]. *)
Definition fmt (v : pystr) : string :=
  match v with
  | Some s => s
  | None => "None"
  end.

Definition format_number (value : pystr) : exn + Decimal :=
  match value with
  | None => inl AttributeError
  | Some s =>
      match Decimal_of_string (remove_char "," s) with
      | Some d => inr d
      | None => inl InvalidOperation
      end
  end.

(** ** The importer object *)

Definition DATA_HEADERS : list string :=
  [ "Booking date";
    "Value date";
    "Transaction Type";
    "Beneficiary / Originator";
    "Payment Details";
    "IBAN";
    "BIC";
    "Customer Reference";
    "Mandate Reference";
    "Creditor ID";
    "Compensation amount";
    "Original Amount";
    "Ultimate creditor";
    "Number of transactions";
    "Number of cheques";
    "Debit";
    "Credit";
    "Currency" ].

Record CurrentAccount : Type := mkCurrentAccount {
  account : string;
  currency : string;
  file_encoding : string;
  _expected_header_regex : Pattern;
  _from_to_regex : Pattern;
  _starting_balance_regex : Pattern;
  _date_from : option date;
  _date_to : option date;
  _starting_balance : option string;
  _finishing_balance : option Decimal
}.

Definition digit : regex := Sym CDigit.
Definition space : regex := Sym CSpace.
Definition date_regex : regex :=
  Seq digit (Seq digit (Seq (Lit "/") (Seq digit (Seq digit (Seq (Lit "/")
    (Seq digit (Seq digit (Seq digit digit)))))))).

(** [CurrentAccount.__init__] *)
Definition init (branch number account currency file_encoding : string)
  : CurrentAccount :=
  {| account := account;
     currency := currency;
     file_encoding := file_encoding;
     _expected_header_regex :=
       mkPattern
         (Seq (Lit "Transactions") (Seq space (Seq (Star (Sym CDot))
           (Seq (Lit ";;;Customer") (Seq space (Seq (Lit "number:") (Seq space
             (Seq (Lit branch) (Seq space (Lit number))))))))))
         true 0;
     _from_to_regex :=
       mkPattern (Seq date_regex (Seq (Lit " - ") date_regex)) false 2;
     _starting_balance_regex :=
       mkPattern
         (Seq (Lit "Old") (Seq space (Seq (Lit "balance:;;;;")
           (Seq (Plus digit) (Seq (Star (Seq (Lit ",") (Plus digit)))
             (Seq (Sym CDot) (Seq digit (Seq digit
               (Seq (Lit ";") (Lit currency))))))))))
         false 4;
     _date_from := None;
     _date_to := None;
     _starting_balance := None;
     _finishing_balance := None |}.

(** The constructor with its defaults, [currency="EUR"] and
    [file_encoding="utf-8"]. *)
Definition init_default (branch number account : string) : CurrentAccount :=
  init branch number account "EUR" "utf-8".

Definition set_date_from (d : date) (self : CurrentAccount) :=
  mkCurrentAccount (account self) (currency self) (file_encoding self)
    (_expected_header_regex self) (_from_to_regex self)
    (_starting_balance_regex self)
    (Some d) (_date_to self) (_starting_balance self) (_finishing_balance self).

Definition set_date_to (d : date) (self : CurrentAccount) :=
  mkCurrentAccount (account self) (currency self) (file_encoding self)
    (_expected_header_regex self) (_from_to_regex self)
    (_starting_balance_regex self)
    (_date_from self) (Some d) (_starting_balance self)
    (_finishing_balance self).

Definition set_starting_balance (b : string) (self : CurrentAccount) :=
  mkCurrentAccount (account self) (currency self) (file_encoding self)
    (_expected_header_regex self) (_from_to_regex self)
    (_starting_balance_regex self)
    (_date_from self) (_date_to self) (Some b) (_finishing_balance self).

Definition set_finishing_balance (b : Decimal) (self : CurrentAccount) :=
  mkCurrentAccount (account self) (currency self) (file_encoding self)
    (_expected_header_regex self) (_from_to_regex self)
    (_starting_balance_regex self)
    (_date_from self) (_date_to self) (_starting_balance self) (Some b).

(** ** Methods: a state monad over the importer object, with exceptions *)

Definition M (A : Type) : Type := CurrentAccount -> CurrentAccount * (exn + A).

#[global] Instance M_ret : MRet M := fun A a self => (self, inr a).

#[global] Instance M_bind : MBind M := fun A B k m self =>
  match m self with
  | (self', inr a) => k a self'
  | (self', inl e) => (self', inl e)
  end.

Definition raise {A : Type} (e : exn) : M A := fun self => (self, inl e).

Definition get_self : M CurrentAccount := fun self => (self, inr self).

Definition modify (f : CurrentAccount -> CurrentAccount) : M unit :=
  fun self => (f self, inr tt).

(** The result of a call that cannot touch the object. *)
Definition lift {A : Type} (r : exn + A) : M A := fun self => (self, r).

Definition or_raise {A : Type} (e : exn) (o : option A) : M A :=
  match o with
  | Some a => mret a
  | None => raise e
  end.

(** ** Files and [csv.DictReader]

    A file is given by its name, its raw text ([file_.contents()]), the lines
    that successive [readline()] calls return (each with its terminator; [""]
    once the end is reached), and the records that [csv.reader], with
    delimiter [;] and the double quote as quote character, yields from the
    fifth line on.
    The tokenisation of the csv module itself is not part of the importer. *)

Record File : Type := mkFile {
  name : string;
  contents : string;
  lines : list string;
  records : list (list string)
}.

Definition readline (file_ : File) (pos : nat) : string :=
  default "" (lines file_ !! pos).

(** A row of the reader: a dict from column names to a [str], or to [None]
    where the record was shorter than the header.  Later entries of the
    association list win, as later assignments to a dict key do. *)
Definition row : Type := list (string * pystr).

Fixpoint dict_get (d : row) (k : string) : option pystr :=
  match d with
  | [] => None
  | (k', v) :: d' =>
      match dict_get d' k with
      | Some v' => Some v'
      | None => if String.eqb k' k then Some v else None
      end
  end.

(** [line[k]] *)
Definition getitem (line : row) (k : string) : M pystr :=
  or_raise (KeyError k) (dict_get line k).

(** [reader.fieldnames]: the first record, [None] on an empty stream. *)
Definition fieldnames (file_ : File) : option (list string) :=
  head (records file_).

(** [DictReader.__next__] on one record: [dict(zip(fieldnames, record))],
    the missing columns filled with [None].  (Surplus values go under the
    key [None], which the importer never reads.) *)
Definition DictReader_row (names : list string) (record : list string) : row :=
  zip names ((Some <$> record)
             ++ replicate (length names - length record) None).

(** The rows the reader yields after the header: empty records are skipped. *)
Definition DictReader_rows (file_ : File) : list row :=
  match records file_ with
  | [] => []
  | names :: recs =>
      DictReader_row names
        <$> filter (fun r => negb (bool_decide (r = []))) recs
  end.

(** ** [CurrentAccount.extract] *)

(** The closure [next_line]: the counter goes up, the line is stripped. *)
Definition next_line (file_ : File) (lineno : nat) : nat * string :=
  (S lineno, strip (readline file_ lineno)).

Definition line4text : string :=
  "Transactions pending are not included in this report.".

(** [set(a) != set(b)] *)
Definition set_ne (a b : list string) : bool :=
  negb (bool_decide (list_to_set (C:=gset string) a = list_to_set b)).

(** [datetime.strptime(v, DATE_FORMAT).date()] and [v.strip()] on a cell of
    the row, which may be [None]. *)
Definition strptime_cell (v : pystr) : M date :=
  match v with
  | None => raise TypeError
  | Some s => or_raise ValueError (strptime s)
  end.

Definition strip_cell (v : pystr) : M string :=
  match v with
  | None => raise AttributeError
  | Some s => mret (strip s)
  end.

(** The body of the loop over the rows, after [lineno += 1]. *)
Definition extract_line (file_ : File) (lineno : nat)
    (entries : list Transaction) (line : row) : M (list Transaction) :=
  self ← get_self;
  booking ← getitem line "Booking date";
  if pystr_eqb booking (Some "Account balance") then
    (* Last line. Balance value is in the "Payment Details" column,
       currency in the "IBAN" column. *)
    iban ← getitem line "IBAN";
    if negb (pystr_eqb iban (Some (currency self))) then
      cur ← getitem line "Currency";
      raise (InvalidFormatError ("Unexpected currency " +:+ fmt cur)
               (Some lineno))
    else
      details ← getitem line "Payment Details";
      balance ← lift (format_number details);
      modify (set_finishing_balance balance);;
      mret entries
  else
    cur ← getitem line "Currency";
    if negb (pystr_eqb cur (Some (currency self))) then
      raise (InvalidFormatError ("Unexpected currency " +:+ fmt cur)
               (Some lineno))
    else
      debit ← getitem line "Debit";
      value ←
        (if truthy debit then
           credit ← getitem line "Credit";
           if truthy credit then
             raise (InvalidFormatError
                      "Cannot have both debit and credit values" (Some lineno))
           else lift (format_number debit)
         else
           credit ← getitem line "Credit";
           if truthy credit then lift (format_number credit)
           else
             raise (InvalidFormatError
                      "Neither debit not credit value found" (Some lineno)));
      let meta := (name file_, lineno) in
      vdate ← getitem line "Value date";
      date ← strptime_cell vdate;
      let amount := mkAmount value (currency self) in
      benef ← getitem line "Beneficiary / Originator";
      payee ← strip_cell benef;
      let narration := "" in
      let postings :=
        [mkPosting (account self) amount None None None None] in
      mret (entries
            ++ [mkTransaction meta date FLAG payee narration ∅ ∅ postings]).

(** [for line in reader: lineno += 1; ...] *)
Fixpoint extract_lines (file_ : File) (lineno : nat)
    (entries : list Transaction) (rows : list row) : M (list Transaction) :=
  match rows with
  | [] => mret entries
  | line :: rows' =>
      let lineno := S lineno in
      entries' ← extract_line file_ lineno entries line;
      extract_lines file_ lineno entries' rows'
  end.

Definition extract (file_ : File) : M (list Transaction) :=
  let entries := [] in
  let lineno := 0 in
  self ← get_self;
  (* Header with account name and number. *)
  let '(lineno, line) := next_line file_ lineno in
  if negb (bool_decide (is_Some (re_match (_expected_header_regex self) line)))
  then
    raise (InvalidFormatError ("Unexpected header '" +:+ line +:+ "'")
             (Some lineno))
  else
  (* From and to dates. *)
  let '(lineno, line) := next_line file_ lineno in
  match re_match (_from_to_regex self) line with
  | None =>
      raise (InvalidFormatError
               ("Unexpected from and to dates '" +:+ line +:+ "'") None)
  | Some from_and_to =>
  if negb (ngroups (_from_to_regex self) =? 2)%nat then
    raise (InvalidFormatError
             ("Unexpected from and to dates '" +:+ line +:+ "'") None)
  else
  date_from ← or_raise ValueError (strptime (substring 0 10 from_and_to));
  modify (set_date_from date_from);;
  date_to ← or_raise ValueError (strptime (substring 13 10 from_and_to));
  modify (set_date_to date_to);;
  (* Starting balance. *)
  let '(lineno, line) := next_line file_ lineno in
  match re_match (_starting_balance_regex self) line with
  | None =>
      raise (InvalidFormatError ("Unexpected old balance '" +:+ line +:+ "'")
               None)
  | Some starting_balance =>
  if negb (ngroups (_starting_balance_regex self) =? 4)%nat then
    raise (InvalidFormatError ("Unexpected old balance '" +:+ line +:+ "'")
             None)
  else
  modify (set_starting_balance starting_balance);;
  (* "Transactions pending are not included in this report." *)
  let '(lineno, line) := next_line file_ lineno in
  if negb (String.eqb line line4text) then
    raise (InvalidFormatError
             ("Unexpected line '" +:+ line +:+ "' (expected " +:+ line4text
              +:+ ")")
             None)
  else
  (* Data entries: check headers. *)
  let lineno := S lineno in
  match fieldnames file_ with
  | None => raise TypeError
  | Some names =>
  if set_ne names DATA_HEADERS then
    let expected := join ";" DATA_HEADERS in
    raise (InvalidFormatError
             ("Unexpected data headers (expected " +:+ expected +:+ ")")
             (Some lineno))
  else
  extract_lines file_ lineno entries (DictReader_rows file_)
  end end end.

(** ** The other methods *)

(** [identify]: the match object or [None]; truthy when there is a match. *)
Definition identify (self : CurrentAccount) (file_ : File) : option string :=
  re_match (_expected_header_regex self) (contents file_).

(** [name]: the module and the class of the importer. *)
Definition name_ (self : CurrentAccount) : string :=
  "beancount_db.current CurrentAccount".

Definition file_account (self : CurrentAccount) (file_ : File) : string :=
  account self.

Definition file_date (file_ : File) : M (option date) :=
  extract file_;;
  self ← get_self;
  mret (_date_to self).

(** ** The statement format, as the specification words it

    The definitions of this section follow the description of the format
    rather than the control flow of [extract]; the theorems relate the two. *)

(** The cell of a row under a column name ([None] also when the column is
    absent). *)
Definition cell (line : row) (k : string) : pystr :=
  default None (dict_get line k).

(** Every column of the schema is a key of the row. *)
Definition has_columns (line : row) : Prop :=
  ∀ k, k ∈ DATA_HEADERS → is_Some (dict_get line k).

(** The four preamble lines are as the format prescribes; the result is the
    period and the text matched on the old-balance line. *)
Definition preamble (self : CurrentAccount) (file_ : File)
  : option (date * date * string) :=
  if bool_decide (is_Some (re_match (_expected_header_regex self)
                             (strip (readline file_ 0))))
  then
    range ← re_match (_from_to_regex self) (strip (readline file_ 1));
    if (ngroups (_from_to_regex self) =? 2)%nat then
      date_from ← strptime (substring 0 10 range);
      date_to ← strptime (substring 13 10 range);
      old ← re_match (_starting_balance_regex self) (strip (readline file_ 2));
      if (ngroups (_starting_balance_regex self) =? 4)%nat
         && String.eqb (strip (readline file_ 3)) line4text
      then Some (date_from, date_to, old)
      else None
    else None
  else None.

(** The header row of the table names exactly the columns of the schema. *)
Definition table_header_ok (file_ : File) : bool :=
  match fieldnames file_ with
  | Some names => negb (set_ne names DATA_HEADERS)
  | None => false
  end.

(** The importer object once the preamble has been read. *)
Definition after_preamble (self : CurrentAccount) (p : date * date * string)
  : CurrentAccount :=
  set_starting_balance p.2 (set_date_to p.1.2 (set_date_from p.1.1 self)).

(** The thousands-separator-stripping decimal parser, on a cell. *)
Definition parse_decimal (v : pystr) : option Decimal :=
  s ← v; Decimal_of_string (remove_char "," s).

(** A row is either the terminal row, carrying the closing balance, or a
    transaction row, carrying amount, date and payee. *)
Inductive RowKind : Type :=
| TerminalRow (closing : Decimal)
| TransactionRow (amount : Decimal) (d : date) (payee : string).

(** The populated one of the debit and credit cells, when exactly one of
    them is a non-empty string. *)
Definition exactly_one (line : row) : option pystr :=
  match truthy (cell line "Debit"), truthy (cell line "Credit") with
  | true, false => Some (cell line "Debit")
  | false, true => Some (cell line "Credit")
  | _, _ => None
  end.

(** What a well-formed row is, for the configured currency. *)
Definition classify (currency : string) (line : row) : option RowKind :=
  if pystr_eqb (cell line "Booking date") (Some "Account balance") then
    if pystr_eqb (cell line "IBAN") (Some currency)
    then TerminalRow <$> parse_decimal (cell line "Payment Details")
    else None
  else
    if pystr_eqb (cell line "Currency") (Some currency) then
      populated ← exactly_one line;
      amount ← parse_decimal populated;
      d ← cell line "Value date" ≫= strptime;
      payee ← strip <$> cell line "Beneficiary / Originator";
      Some (TransactionRow amount d payee)
    else None.

(** The transaction record of a transaction row found on line [lineno]. *)
Definition transaction_record (self : CurrentAccount) (file_ : File)
    (lineno : nat) (amount : Decimal) (d : date) (payee : string)
  : Transaction :=
  mkTransaction (name file_, lineno) d FLAG payee "" ∅ ∅
    [mkPosting (account self) (mkAmount amount (currency self))
       None None None None].

(** The records of the transaction rows among the rows that follow line
    [lineno], in their order. *)
Fixpoint records_of (self : CurrentAccount) (file_ : File) (lineno : nat)
    (kinds : list RowKind) : list Transaction :=
  match kinds with
  | [] => []
  | TerminalRow _ :: kinds' => records_of self file_ (S lineno) kinds'
  | TransactionRow amount d payee :: kinds' =>
      transaction_record self file_ (S lineno) amount d payee
        :: records_of self file_ (S lineno) kinds'
  end.

(** The closing balance of the last terminal row, if there is one. *)
Fixpoint closing_of (kinds : list RowKind) : option Decimal :=
  match kinds with
  | [] => None
  | k :: kinds' =>
      match closing_of kinds', k with
      | Some c, _ => Some c
      | None, TerminalRow c => Some c
      | None, TransactionRow _ _ _ => None
      end
  end.

Definition with_closing (closing : option Decimal) (self : CurrentAccount)
  : CurrentAccount :=
  match closing with
  | Some c => set_finishing_balance c self
  | None => self
  end.

(** The configuration given at construction, with the compiled patterns. *)
Definition configuration (self : CurrentAccount)
  : string * string * string * Pattern * Pattern * Pattern :=
  (account self, currency self, file_encoding self,
   _expected_header_regex self, _from_to_regex self,
   _starting_balance_regex self).

(** What [extract] accumulates: the period and the two balances. *)
Definition accumulated (self : CurrentAccount)
  : option date * option date * option string * option Decimal :=
  (_date_from self, _date_to self, _starting_balance self,
   _finishing_balance self).

(** A transaction row, with its amount, date and payee. *)
Definition transaction_row (currency : string) (line : row)
  : option (Decimal * date * string) :=
  match classify currency line with
  | Some (TransactionRow amount d payee) => Some (amount, d, payee)
  | _ => None
  end.

(** The closing balances of the terminal rows, in their order. *)
Definition closings (kinds : list RowKind) : list Decimal :=
  omap (fun k => match k with
                 | TerminalRow c => Some c
                 | TransactionRow _ _ _ => None
                 end) kinds.

(** ** A statement to run the importer on *)

Definition nl : string := String newline "".

Definition statement_lines : list string :=
  [ "Transactions Current Account;;;Customer number: 100 1234567" +:+ nl;
    "01/01/2023 - 01/31/2023" +:+ nl;
    "Old balance:;;;;1,234.56;EUR" +:+ nl;
    "Transactions pending are not included in this report." +:+ nl ].

Definition statement (table : list (list string)) : File :=
  {| name := "statement.csv";
     contents := join "" statement_lines +:+ join nl (join ";" <$> table);
     lines := statement_lines;
     records := table |}.

Definition importer : CurrentAccount :=
  init_default "100" "1234567" "Assets:DB:Current".

(** A debit of 50.00 and a credit of 1,100.00. *)
Definition purchase : list string :=
  [ "01/05/2023"; "01/05/2023"; "SEPA-Direct Debit"; " Acme "; "Invoice 7";
    "DE02120300000000202051"; "BYLADEM1001"; ""; ""; ""; ""; ""; ""; ""; "";
    "50.00"; ""; "EUR" ].

Definition salary : list string :=
  [ "01/27/2023"; "01/27/2023"; "SEPA-Credit Transfer"; "Employer"; "Salary";
    "DE02500105170137075030"; "INGDDEFFXXX"; ""; ""; ""; ""; ""; ""; ""; "";
    ""; "1,100.00"; "EUR" ].

(** The pseudo-row that closes the table; the export leaves its last twelve
    columns out. *)
Definition balance_row (amount : string) : list string :=
  [ "Account balance"; ""; ""; ""; amount; "EUR" ].

(** A row with both a debit and a credit, one with neither, one in another
    currency, one whose amount is no number and one whose value date is no
    date. *)
Definition with_cells (debit credit cur vdate : string) : list string :=
  [ "01/09/2023"; vdate; "SEPA-Direct Debit"; "Acme"; "Invoice 8";
    "DE02120300000000202051"; "BYLADEM1001"; ""; ""; ""; ""; ""; ""; ""; "";
    debit; credit; cur ].

Definition both_row : list string :=
  with_cells "5.00" "7.00" "EUR" "01/09/2023".
Definition neither_row : list string := with_cells "" "" "EUR" "01/09/2023".
Definition dollar_row : list string := with_cells "5.00" "" "USD" "01/09/2023".
Definition bad_number_row : list string :=
  with_cells "five" "" "EUR" "01/09/2023".
Definition bad_date_row : list string :=
  with_cells "5.00" "" "EUR" "2023-01-09".


(** [self'] differs from [self] in the closing balance at most. *)
Definition same_but_closing (self self' : CurrentAccount) : Prop :=
  configuration self' = configuration self
  ∧ _date_from self' = _date_from self
  ∧ _date_to self' = _date_to self
  ∧ _starting_balance self' = _starting_balance self.

(** The error raised for a table header that is not the schema. *)
Definition header_error : exn :=
  InvalidFormatError
    ("Unexpected data headers (expected " +:+ join ";" DATA_HEADERS +:+ ")")
    (Some 5).

(** Every character of [s] is in the class [k]. *)
Fixpoint all_of (k : cset) (s : string) : bool :=
  match s with
  | String c s' => cset_mem k c && all_of k s'
  | EmptyString => true
  end.

(** The text of a header line for [branch] and [number]: ["Transactions"],
    a whitespace character, any text without a newline, [";;;Customer"], a
    whitespace character, ["number:"], a whitespace character, the branch, a
    whitespace character and the number. *)
Definition header_text (branch number : string) (p : string) : Prop :=
  ∃ (w1 w2 w3 w4 : ascii) (mid : string),
    p = "Transactions" +:+ String w1 mid +:+ ";;;Customer"
        +:+ String w2 "number:" +:+ String w3 branch +:+ String w4 number
    ∧ isspace w1 = true ∧ isspace w2 = true
    ∧ isspace w3 = true ∧ isspace w4 = true
    ∧ all_of CDot mid = true.

(** A file whose header line is its second line. *)
Definition header_on_second_line : File :=
  {| name := "late.csv";
     contents :=
       "Deutsche Bank" +:+ nl
       +:+ "Transactions Current Account;;;Customer number: 100 1234567"
       +:+ nl;
     lines := ["Deutsche Bank" +:+ nl];
     records := [] |}.

(** ** What a call assigns on the importer object

    [extract] assigns four attributes of [self] and nothing else.  A value of
    [Writes] lists, for each of them, the value assigned last, if any. *)

Record Writes : Type := mkWrites {
  w_date_from : option date;
  w_date_to : option date;
  w_starting_balance : option string;
  w_finishing_balance : option Decimal
}.

Definition no_writes : Writes := mkWrites None None None None.

Definition overwrite {A : Type} (new old : option A) : option A :=
  match new with
  | Some v => Some v
  | None => old
  end.

Definition apply_writes (w : Writes) (self : CurrentAccount) : CurrentAccount :=
  mkCurrentAccount (account self) (currency self) (file_encoding self)
    (_expected_header_regex self) (_from_to_regex self)
    (_starting_balance_regex self)
    (overwrite (w_date_from w) (_date_from self))
    (overwrite (w_date_to w) (_date_to self))
    (overwrite (w_starting_balance w) (_starting_balance self))
    (overwrite (w_finishing_balance w) (_finishing_balance self)).

(** First [w1], then [w2]. *)
Definition then_writes (w1 w2 : Writes) : Writes :=
  mkWrites (overwrite (w_date_from w2) (w_date_from w1))
    (overwrite (w_date_to w2) (w_date_to w1))
    (overwrite (w_starting_balance w2) (w_starting_balance w1))
    (overwrite (w_finishing_balance w2) (w_finishing_balance w1)).

(** [self] is an importer constructed for [branch] and [number], in whatever
    state earlier calls left it. *)
Definition constructed (branch number : string) (self : CurrentAccount)
  : Prop :=
  ∃ account cur enc,
    configuration self = configuration (init branch number account cur enc).

(** A file given by its preamble lines and its table. *)
Definition file_of (preamble_lines : list string)
    (table : list (list string)) : File :=
  {| name := "statement.csv";
     contents := join "" preamble_lines +:+ join nl (join ";" <$> table);
     lines := preamble_lines;
     records := table |}.

Definition header_line : string :=
  "Transactions Current Account;;;Customer number: 100 1234567" +:+ nl.
Definition period_line : string := "01/01/2023 - 01/31/2023" +:+ nl.
Definition balance_line : string := "Old balance:;;;;1,234.56;EUR" +:+ nl.
Definition pending_line : string :=
  "Transactions pending are not included in this report." +:+ nl.

(** What every record that [extract] emits looks like. *)
Definition emitted_by (self : CurrentAccount) (file_ : File)
    (t : Transaction) : Prop :=
  (meta t).1 = name file_
  ∧ flag t = FLAG
  ∧ narration t = ""
  ∧ tags t = ∅ ∧ links t = ∅
  ∧ ∃ amount,
      postings t
      = [mkPosting (account self) (mkAmount amount (currency self))
           None None None None].

(** The row is not the terminal row. *)
Definition is_transaction_row (line : row) : Prop :=
  cell line "Booking date" ≠ Some "Account balance".

#[global] Instance is_transaction_row_dec (line : row) :
  Decision (is_transaction_row line).
Proof. unfold is_transaction_row. apply _. Defined.

(** The purchase again, booked on another day, with other details. *)
Definition purchase_rebooked : list string :=
  [ "booked later"; "01/05/2023"; "Card payment"; " Acme "; "Receipt 12";
    ""; ""; "ref"; ""; ""; ""; ""; ""; "1"; "";
    "50.00"; ""; "EUR" ].

(** The same amount in the Credit column. *)
Definition refund : list string :=
  [ "01/05/2023"; "01/05/2023"; "SEPA-Direct Debit"; " Acme "; "Invoice 7";
    "DE02120300000000202051"; "BYLADEM1001"; ""; ""; ""; ""; ""; ""; ""; "";
    ""; "50.00"; "EUR" ].

(** The amount of the old-balance line: digits, in groups separated by
    commas. *)
Definition amount_regex : regex :=
  Seq (Plus digit) (Star (Seq (Lit ",") (Plus digit))).

(** The text of an old-balance line for the currency [cur]: ["Old"], a
    whitespace character, ["balance:;;;;"], the amount, one character that
    is not a newline, two digits, a semicolon and the currency. *)
Definition old_balance_text (cur : string) (p : string) : Prop :=
  ∃ (w c d1 d2 : ascii) (amount : string),
    p = "Old" +:+ String w "balance:;;;;" +:+ amount
        +:+ String c (String d1 (String d2 ";")) +:+ cur
    ∧ isspace w = true
    ∧ accepts amount_regex amount = true
    ∧ c ≠ newline
    ∧ isdigit d1 = true ∧ isdigit d2 = true.


(** * Properties *)

(** ** The library models on examples *)

Example strip_line :
  strip ("  01/01/2023 - 01/31/2023 " +:+ nl) = "01/01/2023 - 01/31/2023".
Proof. reflexivity. Qed.

Example strptime_period :
  strptime "01/01/2023" = Some (mkdate 2023 1 1)
  ∧ strptime "01/31/2023" = Some (mkdate 2023 1 31)
  ∧ strptime "02/29/2023" = None
  ∧ strptime "2023-01-31" = None.
Proof. repeat split; reflexivity. Qed.

Example Decimal_numbers :
  Decimal_of_string "1234.56" = Some (Finite false 123456 (-2))
  ∧ Decimal_of_string " -1_000.5e-3 " = Some (Finite true 10005 (-4))
  ∧ Decimal_of_string "five" = None
  ∧ Decimal_of_string "" = None.
Proof. repeat split; reflexivity. Qed.

Example format_number_thousands :
  format_number (Some "1,234,567.89") = inr (Finite false 123456789 (-2))
  ∧ format_number None = inl AttributeError.
Proof. split; reflexivity. Qed.

Example from_to_line :
  re_match (_from_to_regex importer) "01/01/2023 - 01/31/2023"
  = Some "01/01/2023 - 01/31/2023"
  ∧ re_match (_from_to_regex importer) "1/1/2023 - 1/31/2023" = None.
Proof. split; vm_compute; reflexivity. Qed.

Example old_balance_line :
  re_match (_starting_balance_regex importer) "Old balance:;;;;1,234.56;EUR"
  = Some "Old balance:;;;;1,234.56;EUR"
  ∧ re_match (_starting_balance_regex importer) "Old balance:;;;;1,234.56;USD"
    = None.
Proof. split; vm_compute; reflexivity. Qed.

Example error_text :
  exn_text "Unexpected currency USD" (Some 7)
  = "Unexpected currency USD (line 7)".
Proof. reflexivity. Qed.

Example short_record :
  let line := DictReader_row DATA_HEADERS (balance_row "1,284.56") in
  cell line "IBAN" = Some "EUR" ∧ dict_get line "Currency" = Some None.
Proof. split; reflexivity. Qed.

(** ** Rows of the reader *)

Lemma dict_get_is_Some (d : row) (k : string) :
  k ∈ d.*1 → is_Some (dict_get d k).
Proof.
  induction d as [|[k' v] d IH]; simpl.
  - intros H. by apply elem_of_nil in H.
  - intros H. destruct (dict_get d k) eqn:E; [eauto|].
    apply elem_of_cons in H as [->|H].
    + rewrite String.eqb_refl. eauto.
    + apply IH in H. by destruct H.
Qed.

Lemma dict_get_cell (line : row) (k : string) :
  has_columns line → k ∈ DATA_HEADERS → dict_get line k = Some (cell line k).
Proof.
  intros H Hk. unfold cell. by destruct (H k Hk) as [v ->].
Qed.

Lemma DictReader_row_keys (names record : list string) :
  (DictReader_row names record).*1 = names.
Proof.
  unfold DictReader_row. apply fst_zip.
  rewrite length_app, length_fmap, length_replicate. lia.
Qed.

Lemma DictReader_row_has_columns (names record : list string) :
  set_ne names DATA_HEADERS = false →
  has_columns (DictReader_row names record).
Proof.
  unfold set_ne. intros H k Hk.
  apply negb_false_iff, bool_decide_eq_true in H.
  apply dict_get_is_Some. rewrite DictReader_row_keys.
  apply (elem_of_list_to_set (C:=gset string)). rewrite H.
  by apply elem_of_list_to_set.
Qed.

Lemma DictReader_rows_has_columns (file_ : File) :
  table_header_ok file_ = true → Forall has_columns (DictReader_rows file_).
Proof.
  unfold table_header_ok, fieldnames, DictReader_rows.
  destruct (records file_) as [|names recs]; simpl; [done|].
  intros H. apply negb_true_iff in H.
  apply Forall_fmap, Forall_forall. intros r _. simpl.
  by apply DictReader_row_has_columns.
Qed.

(** ** The monad *)

Lemma bind_ret {A B : Type} (a : A) (k : A → M B) (self : CurrentAccount) :
  (mret a ≫= k) self = k a self.
Proof. reflexivity. Qed.

Lemma bind_raise {A B : Type} (e : exn) (k : A → M B) (self : CurrentAccount) :
  (raise e ≫= k) self = (self, inl e).
Proof. reflexivity. Qed.

Lemma getitem_cell (line : row) (k : string) :
  has_columns line → k ∈ DATA_HEADERS → getitem line k = mret (cell line k).
Proof.
  intros H Hk. unfold getitem. by rewrite (dict_get_cell _ _ H Hk).
Qed.

Lemma DATA_HEADERS_elem (k : string) :
  bool_decide (k ∈ DATA_HEADERS) = true → k ∈ DATA_HEADERS.
Proof. apply bool_decide_eq_true. Qed.

Ltac columns H :=
  repeat match goal with
  | |- context [getitem ?line ?k] =>
      rewrite (getitem_cell line k H (DATA_HEADERS_elem k eq_refl))
  end.

Ltac run :=
  cbv [mbind M_bind mret M_ret get_self raise lift modify or_raise
       strptime_cell strip_cell].

(** ** From the preamble to the rows *)

(** Once the preamble is read, the table header is checked on line 5. *)
Lemma extract_after_preamble (self : CurrentAccount) (file_ : File)
    (p : date * date * string) :
  preamble self file_ = Some p →
  extract file_ self
  = match fieldnames file_ with
    | None => (after_preamble self p, inl TypeError)
    | Some names =>
        if set_ne names DATA_HEADERS
        then (after_preamble self p, inl header_error)
        else extract_lines file_ 5 [] (DictReader_rows file_)
               (after_preamble self p)
    end.
Proof.
  unfold preamble, extract, next_line, after_preamble.
  intros Hp. run.
  destruct (bool_decide (is_Some (re_match (_expected_header_regex self) _)));
    simpl in *; [|done].
  destruct (re_match (_from_to_regex self) _) as [range|]; simpl in *; [|done].
  destruct (ngroups (_from_to_regex self) =? 2)%nat; simpl in *; [|done].
  destruct (strptime (substring 0 10 range)) as [d1|]; simpl in *; [|done].
  destruct (strptime (substring 13 10 range)) as [d2|]; simpl in *; [|done].
  destruct (re_match (_starting_balance_regex self) _) as [old|];
    simpl in *; [|done].
  destruct (ngroups (_starting_balance_regex self) =? 4)%nat;
    simpl in *; [|done].
  destruct (String.eqb _ line4text); simpl in *; [|done].
  injection Hp as <-. simpl.
  destruct (fieldnames file_) as [names|]; [|done].
  by destruct (set_ne names DATA_HEADERS).
Qed.

Lemma extract_head (self : CurrentAccount) (file_ : File)
    (p : date * date * string) :
  preamble self file_ = Some p →
  table_header_ok file_ = true →
  extract file_ self
  = extract_lines file_ 5 [] (DictReader_rows file_) (after_preamble self p).
Proof.
  intros Hp Ht. rewrite (extract_after_preamble _ _ p Hp).
  unfold table_header_ok in Ht.
  destruct (fieldnames file_) as [names|]; [|done].
  by destruct (set_ne names DATA_HEADERS).
Qed.

(** ** One row *)

Lemma classify_terminal (cur : string) (line : row) (c : Decimal) :
  classify cur line = Some (TerminalRow c) ↔
  pystr_eqb (cell line "Booking date") (Some "Account balance") = true
  ∧ pystr_eqb (cell line "IBAN") (Some cur) = true
  ∧ parse_decimal (cell line "Payment Details") = Some c.
Proof.
  unfold classify.
  destruct (pystr_eqb (cell line "Booking date") _).
  - destruct (pystr_eqb (cell line "IBAN") _).
    + destruct (parse_decimal _) as [c'|]; simpl.
      * split; [by intros [= ->]|by intros (_ & _ & [= ->])].
      * split; [done|by intros (_ & _ & [=])].
    + split; [done|by intros (_ & [=] & _)].
  - split; [|by intros ([=] & _)].
    destruct (pystr_eqb (cell line "Currency") _); [|done].
    intros Hc. by simplify_option_eq.
Qed.

Lemma classify_transaction (cur : string) (line : row)
    (amount : Decimal) (d : date) (payee : string) :
  classify cur line = Some (TransactionRow amount d payee) ↔
  pystr_eqb (cell line "Booking date") (Some "Account balance") = false
  ∧ pystr_eqb (cell line "Currency") (Some cur) = true
  ∧ (∃ populated, exactly_one line = Some populated
                  ∧ parse_decimal populated = Some amount)
  ∧ cell line "Value date" ≫= strptime = Some d
  ∧ strip <$> cell line "Beneficiary / Originator" = Some payee.
Proof.
  unfold classify.
  destruct (pystr_eqb (cell line "Booking date") _).
  - split; [|by intros ([=] & _)].
    destruct (pystr_eqb (cell line "IBAN") _); [|done].
    by destruct (parse_decimal _).
  - destruct (pystr_eqb (cell line "Currency") _);
      [|split; [done|by intros (_ & [=] & _)]].
    split.
    + intros Hc. simplify_option_eq. eauto 10.
    + intros (_ & _ & (x & -> & Hx) & Hd & Hp). simpl.
      rewrite Hx. simpl. rewrite Hd. simpl. by rewrite Hp.
Qed.

Lemma extract_line_terminal (self : CurrentAccount) (file_ : File)
    (lineno : nat) (entries : list Transaction) (line : row) (c : Decimal) :
  has_columns line →
  classify (currency self) line = Some (TerminalRow c) →
  extract_line file_ lineno entries line self
  = (set_finishing_balance c self, inr entries).
Proof.
  intros H (Hb & Hi & Hp)%classify_terminal.
  unfold extract_line, format_number. columns H. run.
  rewrite Hb, Hi. simpl. unfold parse_decimal in Hp.
  destruct (cell line "Payment Details") as [s|]; simpl in *; [|done].
  by rewrite Hp.
Qed.

Lemma extract_line_transaction (self : CurrentAccount) (file_ : File)
    (lineno : nat) (entries : list Transaction) (line : row)
    (amount : Decimal) (d : date) (payee : string) :
  has_columns line →
  classify (currency self) line = Some (TransactionRow amount d payee) →
  extract_line file_ lineno entries line self
  = (self,
     inr (entries ++ [transaction_record self file_ lineno amount d payee])).
Proof.
  intros H (Hb & Hc & (x & Hx & Ha) & Hd & Hp)%classify_transaction.
  unfold extract_line, format_number. columns H. run.
  rewrite Hb, Hc. simpl. unfold exactly_one, parse_decimal in *.
  destruct (cell line "Value date") as [v|]; simpl in *; [|done].
  destruct (cell line "Beneficiary / Originator") as [b|]; simpl in *; [|done].
  injection Hp as <-.
  destruct (truthy (cell line "Debit")), (truthy (cell line "Credit"));
    try done; injection Hx as <-.
  all: destruct (cell line _) as [s|] in Ha |- *; simpl in *; [|done].
  all: by rewrite Ha, Hd.
Qed.

(** ** The loop over the rows *)

Lemma extract_lines_app (file_ : File) (pre post : list row) :
  ∀ lineno entries self,
  extract_lines file_ lineno entries (pre ++ post) self
  = match extract_lines file_ lineno entries pre self with
    | (self', inr entries') =>
        extract_lines file_ (lineno + length pre) entries' post self'
    | (self', inl e) => (self', inl e)
    end.
Proof.
  induction pre as [|line pre IH]; intros lineno entries self; simpl.
  - by rewrite Nat.add_0_r.
  - run. destruct (extract_line _ _ _ _ _) as [self' [e|entries']]; [done|].
    rewrite (IH (S lineno)). by rewrite Nat.add_succ_comm.
Qed.

Lemma records_of_frame (self self' : CurrentAccount) (file_ : File)
    (kinds : list RowKind) :
  account self = account self' → currency self = currency self' →
  ∀ lineno, records_of self file_ lineno kinds
            = records_of self' file_ lineno kinds.
Proof.
  intros Ha Hc. unfold transaction_record.
  induction kinds as [|[c|a d p] kinds IH]; intros lineno; simpl;
    [done|apply IH|].
  unfold transaction_record. by rewrite Ha, Hc, IH.
Qed.

Lemma extract_lines_classified (file_ : File) (rows : list row) :
  ∀ kinds lineno entries self,
  Forall has_columns rows →
  mapM (classify (currency self)) rows = Some kinds →
  extract_lines file_ lineno entries rows self
  = (with_closing (closing_of kinds) self,
     inr (entries ++ records_of self file_ lineno kinds)).
Proof.
  induction rows as [|line rows IH]; intros kinds lineno entries self Hcol Hk.
  - apply mapM_Some, Forall2_nil_inv_l in Hk as ->. simpl.
    by rewrite app_nil_r.
  - apply mapM_Some, Forall2_cons_inv_l in Hk as (k & kinds' & Hk & Hks & ->).
    apply Forall_cons in Hcol as [Hline Hcol]. simpl. run.
    destruct k as [c|a d p].
    + rewrite (extract_line_terminal _ _ _ _ _ c Hline Hk).
      rewrite (IH kinds'); [|done|by apply mapM_Some].
      f_equal; [by destruct (closing_of kinds')|].
      f_equal. f_equal. by apply records_of_frame.
    + rewrite (extract_line_transaction _ _ _ _ _ a d p Hline Hk).
      rewrite (IH kinds'); [|done|by apply mapM_Some].
      destruct (closing_of kinds'); simpl; by rewrite <- app_assoc.
Qed.

Lemma extract_classified (self : CurrentAccount) (file_ : File)
    (p : date * date * string) (kinds : list RowKind) :
  preamble self file_ = Some p →
  table_header_ok file_ = true →
  mapM (classify (currency self)) (DictReader_rows file_) = Some kinds →
  extract file_ self
  = (with_closing (closing_of kinds) (after_preamble self p),
     inr (records_of self file_ 5 kinds)).
Proof.
  intros Hp Ht Hk. rewrite (extract_head _ _ p Hp Ht).
  rewrite (extract_lines_classified _ _ kinds);
    [|by apply DictReader_rows_has_columns|done].
  simpl. f_equal. f_equal. by apply records_of_frame.
Qed.

(** The row at a given place, the rows before it being well formed. *)
Lemma extract_at_row (self : CurrentAccount) (file_ : File)
    (p : date * date * string) (pre post : list row) (line : row)
    (kinds : list RowKind) :
  preamble self file_ = Some p →
  table_header_ok file_ = true →
  DictReader_rows file_ = pre ++ line :: post →
  mapM (classify (currency self)) pre = Some kinds →
  has_columns line
  ∧ extract file_ self
    = match extract_line file_ (6 + length pre)
              (records_of self file_ 5 kinds) line
              (with_closing (closing_of kinds) (after_preamble self p)) with
      | (self', inr entries) =>
          extract_lines file_ (6 + length pre) entries post self'
      | (self', inl e) => (self', inl e)
      end.
Proof.
  intros Hp Ht Hr Hk.
  pose proof (DictReader_rows_has_columns _ Ht) as Hcol.
  rewrite Hr in Hcol. apply Forall_app in Hcol as [Hpre Hcol].
  apply Forall_cons in Hcol as [Hline _]. split; [done|].
  rewrite (extract_head _ _ p Hp Ht), Hr, extract_lines_app.
  rewrite (extract_lines_classified _ _ kinds); [|done|done].
  simpl. run.
  rewrite (records_of_frame (after_preamble self p) self); [|done..].
  done.
Qed.

Lemma records_of_transactions (self : CurrentAccount) (file_ : File)
    (txs : list (Decimal * date * string)) :
  ∀ lineno,
  records_of self file_ lineno
    ((fun x : Decimal * date * string =>
        TransactionRow x.1.1 x.1.2 x.2) <$> txs)
  = imap (fun i x =>
            transaction_record self file_ (lineno + 1 + i) x.1.1 x.1.2 x.2) txs.
Proof.
  induction txs as [|[[a d] p] txs IH]; intros lineno; simpl; [done|].
  rewrite IH. f_equal; [f_equal; lia|].
  apply imap_ext. intros i x _. simpl. f_equal. lia.
Qed.

Lemma transaction_rows_kinds (cur : string) (rows : list row)
    (txs : list (Decimal * date * string)) :
  mapM (transaction_row cur) rows = Some txs →
  mapM (classify cur) rows
  = Some ((fun x : Decimal * date * string =>
             TransactionRow x.1.1 x.1.2 x.2) <$> txs).
Proof.
  intros H. apply mapM_Some. apply mapM_Some in H.
  apply Forall2_fmap_r. eapply Forall2_impl; [exact H|].
  intros line [[a d] p]. unfold transaction_row. simpl.
  destruct (classify cur line) as [[c|a' d' p']|]; [done| |done].
  by intros [= -> -> ->].
Qed.

Lemma closing_of_app_terminal (kinds : list RowKind) (c : Decimal) :
  closing_of (kinds ++ [TerminalRow c]) = Some c.
Proof. induction kinds as [|k kinds IH]; simpl; [done|]. by rewrite IH. Qed.

Lemma records_of_app (self : CurrentAccount) (file_ : File)
    (ks1 ks2 : list RowKind) :
  ∀ lineno,
  records_of self file_ lineno (ks1 ++ ks2)
  = records_of self file_ lineno ks1
    ++ records_of self file_ (lineno + length ks1) ks2.
Proof.
  induction ks1 as [|[c|a d p] ks1 IH]; intros lineno; simpl.
  - by rewrite Nat.add_0_r.
  - rewrite IH. by rewrite Nat.add_succ_comm.
  - rewrite IH. by rewrite Nat.add_succ_comm.
Qed.

(** ** Valid statements, and the terminal row wherever it stands *)

(** C1.  A valid statement: the preamble and the table header are as
    prescribed, the table holds N transaction rows followed by the terminal
    row.  Then [extract] returns exactly N transaction records, the i-th one
    built from the i-th row (found on line 6 + i), and the closing balance of
    the terminal row is recorded; the terminal row yields no record. *)
Theorem extract_valid_statement (self : CurrentAccount) (file_ : File)
    (p : date * date * string) (ordinary : list row) (terminal : row)
    (txs : list (Decimal * date * string)) (closing : Decimal) :
  preamble self file_ = Some p →
  table_header_ok file_ = true →
  DictReader_rows file_ = ordinary ++ [terminal] →
  mapM (transaction_row (currency self)) ordinary = Some txs →
  classify (currency self) terminal = Some (TerminalRow closing) →
  let entries :=
    imap (fun i x => transaction_record self file_ (6 + i) x.1.1 x.1.2 x.2)
      txs in
  extract file_ self
  = (set_finishing_balance closing (after_preamble self p), inr entries)
  ∧ length entries = length ordinary
  ∧ _finishing_balance (extract file_ self).1 = Some closing.
Proof.
  intros Hp Ht Hr Hk Hc entries.
  assert (extract file_ self
          = (set_finishing_balance closing (after_preamble self p),
             inr entries)) as He.
  { rewrite (extract_classified _ _ p
               (((fun x : Decimal * date * string =>
                    TransactionRow x.1.1 x.1.2 x.2) <$> txs)
                ++ [TerminalRow closing]) Hp Ht).
    - rewrite closing_of_app_terminal, records_of_app. simpl.
      rewrite app_nil_r, records_of_transactions. done.
    - rewrite Hr. apply mapM_Some, Forall2_app.
      + by apply mapM_Some, transaction_rows_kinds.
      + by apply Forall2_cons. }
  split; [done|]. split; [|by rewrite He].
  unfold entries. rewrite length_imap.
  apply mapM_Some, Forall2_length in Hk. done.
Qed.

Lemma closing_of_last (kinds : list RowKind) :
  closing_of kinds = last (closings kinds).
Proof.
  induction kinds as [|k kinds IH]; simpl; [done|].
  rewrite IH. destruct k as [c|a d p].
  - change (closings (TerminalRow c :: kinds)) with (c :: closings kinds).
    destruct (closings kinds) as [|c' cs]; [done|].
    rewrite !last_cons. by destruct (last cs).
  - change (closings (TransactionRow a d p :: kinds)) with (closings kinds).
    by destruct (last (closings kinds)).
Qed.

Lemma records_of_length (self : CurrentAccount) (file_ : File)
    (kinds : list RowKind) :
  ∀ lineno,
  length (records_of self file_ lineno kinds) + length (closings kinds)
  = length kinds.
Proof.
  induction kinds as [|[c|a d p] kinds IH]; intros lineno; simpl; [done|..].
  - rewrite <- (IH (S lineno)). unfold closings. simpl. lia.
  - rewrite <- (IH (S lineno)). unfold closings. simpl. lia.
Qed.

(** C10.  [extract] does not require the sentinel row to be unique or last.
    Whenever every row of the table is well formed, terminal rows standing
    anywhere and in any number, no error is raised: the transaction rows,
    before and after the terminal rows alike, yield their records in order,
    and the closing balance that stays recorded is the one of the last
    terminal row, each such row having overwritten the balance of the one
    before. *)
Theorem extract_sentinel_anywhere (self : CurrentAccount) (file_ : File)
    (p : date * date * string) (kinds : list RowKind) :
  preamble self file_ = Some p →
  table_header_ok file_ = true →
  mapM (classify (currency self)) (DictReader_rows file_) = Some kinds →
  let entries := records_of self file_ 5 kinds in
  (extract file_ self).2 = inr entries
  ∧ length entries + length (closings kinds) = length (DictReader_rows file_)
  ∧ (closings kinds ≠ [] →
     _finishing_balance (extract file_ self).1 = last (closings kinds))
  ∧ ∀ before after c,
      kinds = before ++ TerminalRow c :: after →
      entries = records_of self file_ 5 before
                ++ records_of self file_ (6 + length before) after.
Proof.
  intros Hp Ht Hk entries.
  rewrite (extract_classified _ _ p kinds Hp Ht Hk). simpl.
  split; [done|]. split; [|split].
  - unfold entries. rewrite records_of_length.
    apply mapM_Some, Forall2_length in Hk. done.
  - intros [c Hc]%last_is_Some. by rewrite closing_of_last, Hc.
  - intros before after c ->. unfold entries.
    by rewrite records_of_app.
Qed.

Lemma extract_valid_statement_witness :
  let file_ :=
    statement [DATA_HEADERS; purchase; salary; balance_row "1,284.56"] in
  let entries :=
    [ transaction_record importer file_ 6
        (Finite false 5000 (-2)) (mkdate 2023 1 5) "Acme";
      transaction_record importer file_ 7
        (Finite false 110000 (-2)) (mkdate 2023 1 27) "Employer" ] in
  extract file_ importer
  = (set_finishing_balance (Finite false 128456 (-2))
       (after_preamble importer
          (mkdate 2023 1 1, mkdate 2023 1 31, "Old balance:;;;;1,234.56;EUR")),
     inr entries)
  ∧ length entries = 2
  ∧ _finishing_balance (extract file_ importer).1
    = Some (Finite false 128456 (-2)).
Proof.
  refine (extract_valid_statement importer
           (statement [DATA_HEADERS; purchase; salary; balance_row "1,284.56"])
           (mkdate 2023 1 1, mkdate 2023 1 31, "Old balance:;;;;1,234.56;EUR")
           (DictReader_row DATA_HEADERS <$> [purchase; salary])
           (DictReader_row DATA_HEADERS (balance_row "1,284.56"))
           [ (Finite false 5000 (-2), mkdate 2023 1 5, "Acme");
             (Finite false 110000 (-2), mkdate 2023 1 27, "Employer") ]
           (Finite false 128456 (-2)) _ _ _ _ _);
    vm_compute; reflexivity.
Defined.

Lemma extract_sentinel_anywhere_witness :
  let file_ :=
    statement [DATA_HEADERS; purchase; balance_row "1,184.56"; salary;
               balance_row "2,284.56"; purchase] in
  let kinds :=
    [ TransactionRow (Finite false 5000 (-2)) (mkdate 2023 1 5) "Acme";
      TerminalRow (Finite false 118456 (-2));
      TransactionRow (Finite false 110000 (-2)) (mkdate 2023 1 27) "Employer";
      TerminalRow (Finite false 228456 (-2));
      TransactionRow (Finite false 5000 (-2)) (mkdate 2023 1 5) "Acme" ] in
  let entries := records_of importer file_ 5 kinds in
  (extract file_ importer).2 = inr entries
  ∧ length entries + length (closings kinds) = 5
  ∧ (closings kinds ≠ [] →
     _finishing_balance (extract file_ importer).1 = last (closings kinds))
  ∧ ∀ before after c,
      kinds = before ++ TerminalRow c :: after →
      entries = records_of importer file_ 5 before
                ++ records_of importer file_ (6 + length before) after.
Proof.
  refine (extract_sentinel_anywhere importer
           (statement [DATA_HEADERS; purchase; balance_row "1,184.56"; salary;
                       balance_row "2,284.56"; purchase])
           (mkdate 2023 1 1, mkdate 2023 1 31, "Old balance:;;;;1,234.56;EUR")
           _ _ _ _);
    vm_compute; reflexivity.
Defined.

(** ** What one row can do *)

Lemma pystr_eqb_true (a b : pystr) : pystr_eqb a b = true ↔ a = b.
Proof. apply bool_decide_eq_true. Qed.

Lemma pystr_eqb_false (a b : pystr) : pystr_eqb a b = false ↔ a ≠ b.
Proof. apply bool_decide_eq_false. Qed.

(** A transaction row whose currency is the configured one. *)
Lemma extract_line_ordinary (self : CurrentAccount) (file_ : File)
    (lineno : nat) (entries : list Transaction) (line : row) :
  has_columns line →
  cell line "Booking date" ≠ Some "Account balance" →
  cell line "Currency" = Some (currency self) →
  extract_line file_ lineno entries line self
  = (self,
     match truthy (cell line "Debit"), truthy (cell line "Credit") with
     | true, true =>
         inl (InvalidFormatError "Cannot have both debit and credit values"
                (Some lineno))
     | false, false =>
         inl (InvalidFormatError "Neither debit not credit value found"
                (Some lineno))
     | d, _ =>
         match format_number
                 (if d then cell line "Debit" else cell line "Credit") with
         | inl e => inl e
         | inr value =>
             match cell line "Value date",
                   cell line "Beneficiary / Originator" with
             | None, _ => inl TypeError
             | Some v, benef =>
                 match strptime v, benef with
                 | None, _ => inl ValueError
                 | Some _, None => inl AttributeError
                 | Some d, Some b =>
                     inr (entries
                          ++ [transaction_record self file_ lineno value d
                                (strip b)])
                 end
             end
         end
     end).
Proof.
  intros H Hb%pystr_eqb_false Hc%pystr_eqb_true.
  unfold extract_line. columns H. run. rewrite Hb, Hc. simpl.
  destruct (truthy (cell line "Debit")), (truthy (cell line "Credit"));
    simpl; try done.
  all: destruct (format_number _) as [e|value]; simpl; [done|].
  all: destruct (cell line "Value date") as [v|]; simpl; [|done].
  all: destruct (strptime v) as [d|]; simpl; [|done].
  all: by destruct (cell line "Beneficiary / Originator").
Qed.

Lemma extract_line_currency (self : CurrentAccount) (file_ : File)
    (lineno : nat) (entries : list Transaction) (line : row) :
  has_columns line →
  cell line "Booking date" ≠ Some "Account balance" →
  cell line "Currency" ≠ Some (currency self) →
  extract_line file_ lineno entries line self
  = (self,
     inl (InvalidFormatError
            ("Unexpected currency " +:+ fmt (cell line "Currency"))
            (Some lineno))).
Proof.
  intros H Hb%pystr_eqb_false Hc%pystr_eqb_false.
  unfold extract_line. columns H. run. by rewrite Hb, Hc.
Qed.

(** The terminal row. *)
Lemma extract_line_sentinel (self : CurrentAccount) (file_ : File)
    (lineno : nat) (entries : list Transaction) (line : row) :
  has_columns line →
  cell line "Booking date" = Some "Account balance" →
  extract_line file_ lineno entries line self
  = if pystr_eqb (cell line "IBAN") (Some (currency self)) then
      match format_number (cell line "Payment Details") with
      | inl e => (self, inl e)
      | inr balance => (set_finishing_balance balance self, inr entries)
      end
    else
      (self,
       inl (InvalidFormatError
              ("Unexpected currency " +:+ fmt (cell line "Currency"))
              (Some lineno))).
Proof.
  intros H Hb%pystr_eqb_true.
  unfold extract_line. columns H. run. rewrite Hb.
  by destruct (pystr_eqb (cell line "IBAN") _).
Qed.


Lemma extract_line_position (file_ : File) (lineno : nat)
    (entries : list Transaction) (line : row) (self self' : CurrentAccount)
    (message : string) (pos : option nat) :
  extract_line file_ lineno entries line self
  = (self', inl (InvalidFormatError message pos)) →
  pos = Some lineno.
Proof.
  unfold extract_line, getitem. run.
  repeat (case_match; try done).
  all: intros ?; simplify_eq; try done.
  all: unfold format_number in *; by repeat case_match.
Qed.


Lemma extract_lines_position (file_ : File) (rows : list row) :
  ∀ lineno entries self self' message pos,
  extract_lines file_ lineno entries rows self
  = (self', inl (InvalidFormatError message pos)) →
  ∃ n, pos = Some n ∧ lineno < n.
Proof.
  induction rows as [|line rows IH];
    intros lineno entries self self' message pos; [done|].
  simpl. run.
  destruct (extract_line _ _ _ _ _) as [self1 [e|es]] eqn:E.
  - intros [= -> ->]. apply extract_line_position in E. eauto.
  - intros (n & -> & Hn)%IH. exists n. split; [done|lia].
Qed.

(** ** The checks on a row *)

Lemma format_number_error (v : pystr) (e : exn) :
  format_number v = inl e → e = AttributeError ∨ e = InvalidOperation.
Proof.
  unfold format_number. repeat case_match; intros [= <-]; auto.
Qed.

Lemma extract_line_populated (self : CurrentAccount) (file_ : File)
    (lineno : nat) (entries : list Transaction) (line : row)
    (populated : pystr) :
  has_columns line →
  cell line "Booking date" ≠ Some "Account balance" →
  cell line "Currency" = Some (currency self) →
  exactly_one line = Some populated →
  extract_line file_ lineno entries line self
  = (self,
     match format_number populated with
     | inl e => inl e
     | inr value =>
         match cell line "Value date",
               cell line "Beneficiary / Originator" with
         | None, _ => inl TypeError
         | Some v, benef =>
             match strptime v, benef with
             | None, _ => inl ValueError
             | Some _, None => inl AttributeError
             | Some d, Some b =>
                 inr (entries
                      ++ [transaction_record self file_ lineno value d
                            (strip b)])
             end
         end
     end).
Proof.
  intros H Hb Hc Hx. rewrite extract_line_ordinary by done.
  unfold exactly_one in Hx.
  by destruct (truthy (cell line "Debit")), (truthy (cell line "Credit"));
    simplify_eq.
Qed.









(** ** The two balances *)

(** C5 (as stated, refuted).  With the payment-details cell ["1.234,56"] the
    recorded closing balance is not a decimal equal to 1234.56. *)
Lemma closing_balance_example_counterexample :
  ¬ ∃ d,
      _finishing_balance
        (extract (statement [DATA_HEADERS; balance_row "1.234,56"])
           importer).1 = Some d
      ∧ Decimal_eqb d (Finite false 123456 (-2)) = true.
Proof.
  intros (d & Hd & He). vm_compute in Hd. injection Hd as <-.
  vm_compute in He. discriminate.
Qed.

(** C5 (amended).  For the terminal row with booking date
    ["Account balance"] and IBAN cell ["EUR"], the configured currency being
    EUR: with the payment-details cell ["1.234,56"] the closing balance
    recorded is the decimal 1.23456 (commas are dropped, the dot is the
    decimal point); with ["1,234.56"] it is 1234.56.  The balance is stored
    as a bare decimal, and no transaction is emitted for the row. *)
Theorem closing_balance_example (self : CurrentAccount) (file_ : File)
    (p : date * date * string) (pre : list row) (line : row)
    (kinds : list RowKind) :
  preamble self file_ = Some p →
  table_header_ok file_ = true →
  DictReader_rows file_ = pre ++ [line] →
  mapM (classify (currency self)) pre = Some kinds →
  currency self = "EUR" →
  cell line "Booking date" = Some "Account balance" →
  cell line "IBAN" = Some "EUR" →
  (cell line "Payment Details" = Some "1.234,56" →
   extract file_ self
   = (set_finishing_balance (Finite false 123456 (-5)) (after_preamble self p),
      inr (records_of self file_ 5 kinds)))
  ∧ (cell line "Payment Details" = Some "1,234.56" →
     extract file_ self
     = (set_finishing_balance (Finite false 123456 (-2))
          (after_preamble self p),
        inr (records_of self file_ 5 kinds))).
Proof.
  intros Hp Ht Hr Hk Hcur Hb Hi.
  assert (∀ s c, cell line "Payment Details" = Some s →
                 Decimal_of_string (remove_char "," s) = Some c →
                 extract file_ self
                 = (set_finishing_balance c (after_preamble self p),
                    inr (records_of self file_ 5 kinds))) as H.
  { intros s c Hs Hc.
    rewrite (extract_classified _ _ p (kinds ++ [TerminalRow c]) Hp Ht).
    - rewrite closing_of_app_terminal, records_of_app. simpl.
      by rewrite app_nil_r.
    - rewrite Hr. apply mapM_Some, Forall2_app; [by apply mapM_Some|].
      constructor; [|done]. apply classify_terminal.
      rewrite Hb, Hi, Hs, Hcur. by rewrite !(proj2 (pystr_eqb_true _ _)). }
  split; intros Hs; by apply (H _ _ Hs).
Qed.

Lemma closing_balance_example_witness :
  extract (statement [DATA_HEADERS; purchase; balance_row "1.234,56"]) importer
  = (set_finishing_balance (Finite false 123456 (-5))
       (after_preamble importer
          (mkdate 2023 1 1, mkdate 2023 1 31, "Old balance:;;;;1,234.56;EUR")),
     inr (records_of importer
            (statement [DATA_HEADERS; purchase; balance_row "1.234,56"]) 5
            [TransactionRow (Finite false 5000 (-2)) (mkdate 2023 1 5)
               "Acme"])).
Proof.
  refine (proj1 (closing_balance_example importer
            (statement [DATA_HEADERS; purchase; balance_row "1.234,56"])
            (mkdate 2023 1 1, mkdate 2023 1 31,
             "Old balance:;;;;1,234.56;EUR")
            [DictReader_row DATA_HEADERS purchase]
            (DictReader_row DATA_HEADERS (balance_row "1.234,56"))
            [TransactionRow (Finite false 5000 (-2)) (mkdate 2023 1 5) "Acme"]
            _ _ _ _ _ _ _) _);
    vm_compute; reflexivity.
Defined.

(** C3 (the code at a valid preamble).  The opening balance that [extract]
    stores is the text matched on line 3, the whole line; the amount on it
    is not parsed. *)
Theorem opening_balance_is_raw_text :
  _starting_balance
    (extract (statement [DATA_HEADERS; purchase; balance_row "1,284.56"])
       importer).1
  = Some "Old balance:;;;;1,234.56;EUR"
  ∧ parse_decimal (Some "1,234.56") = Some (Finite false 123456 (-2)).
Proof. split; vm_compute; reflexivity. Qed.

(** ** What [extract] leaves on the importer object *)

Lemma extract_line_state (file_ : File) (lineno : nat)
    (entries : list Transaction) (line : row) (self : CurrentAccount) :
  same_but_closing self (extract_line file_ lineno entries line self).1.
Proof.
  unfold extract_line, getitem. run.
  repeat (case_match; simplify_eq; try done).
Qed.

Lemma same_but_closing_trans (a b c : CurrentAccount) :
  same_but_closing a b → same_but_closing b c → same_but_closing a c.
Proof.
  unfold same_but_closing. intros (-> & -> & -> & ->) (-> & -> & -> & ->).
  done.
Qed.

Lemma extract_lines_state (file_ : File) (rows : list row) :
  ∀ lineno entries self,
  same_but_closing self (extract_lines file_ lineno entries rows self).1.
Proof.
  induction rows as [|line rows IH]; intros lineno entries self; [done|].
  simpl. run.
  pose proof (extract_line_state file_ (S lineno) entries line self) as H.
  destruct (extract_line _ _ _ _ _) as [self1 [e|es]]; [done|].
  eapply same_but_closing_trans; [exact H|apply IH].
Qed.

Lemma extract_configuration (self : CurrentAccount) (file_ : File) :
  configuration (extract file_ self).1 = configuration self.
Proof.
  unfold extract, next_line. run.
  repeat (case_match; simplify_eq; try done).
  all: match goal with
       | |- context [extract_lines ?f ?n ?es ?rows ?s] =>
           by destruct (extract_lines_state f rows n es s) as [-> _]
       end.
Qed.

(** ** The table header *)

Lemma set_ne_false (names : list string) :
  set_ne names DATA_HEADERS = false ↔ ∀ x, x ∈ names ↔ x ∈ DATA_HEADERS.
Proof.
  unfold set_ne. rewrite negb_false_iff, bool_decide_eq_true. split.
  - intros H x. rewrite <- !(elem_of_list_to_set (C:=gset string)).
    by rewrite H.
  - intros H. apply set_eq. intros x. rewrite !elem_of_list_to_set. apply H.
Qed.

Lemma set_ne_true (names : list string) :
  set_ne names DATA_HEADERS = true ↔ ¬ ∀ x, x ∈ names ↔ x ∈ DATA_HEADERS.
Proof.
  rewrite <- set_ne_false. by destruct (set_ne names DATA_HEADERS).
Qed.

Lemma DATA_HEADERS_NoDup : NoDup DATA_HEADERS.
Proof. apply (bool_decide_unpack _). by vm_compute. Qed.

(** C7.  Validation of the table header, the preamble being valid.  The
    header is accepted exactly when its names and the 18 names of the schema
    are the same set.  Hence every permutation of the 18 names is accepted
    and [extract] goes on to the rows; a header with a name that is not in
    the schema added to it, or with one of the 18 names taken out of it, is
    rejected with the error that lists the expected header joined by
    semicolons, on line 5. *)
Theorem table_header_validation (self : CurrentAccount) (file_ : File)
    (p : date * date * string) (names : list string) :
  preamble self file_ = Some p →
  fieldnames file_ = Some names →
  let result := (extract file_ self).2 in
  (result ≠ inl header_error ↔ ∀ x, x ∈ names ↔ x ∈ DATA_HEADERS)
  ∧ (names ≡ₚ DATA_HEADERS →
     result ≠ inl header_error
     ∧ extract file_ self
       = extract_lines file_ 5 [] (DictReader_rows file_)
           (after_preamble self p))
  ∧ (∀ l1 l2 x,
       l1 ++ l2 ≡ₚ DATA_HEADERS → x ∉ DATA_HEADERS →
       names = l1 ++ x :: l2 → result = inl header_error)
  ∧ (∀ l1 l2 x,
       l1 ++ x :: l2 ≡ₚ DATA_HEADERS →
       names = l1 ++ l2 → result = inl header_error)
  ∧ header_error
    = InvalidFormatError
        ("Unexpected data headers (expected "
         +:+ "Booking date;Value date;Transaction Type;"
         +:+ "Beneficiary / Originator;Payment Details;IBAN;BIC;"
         +:+ "Customer Reference;Mandate Reference;Creditor ID;"
         +:+ "Compensation amount;Original Amount;Ultimate creditor;"
         +:+ "Number of transactions;Number of cheques;"
         +:+ "Debit;Credit;Currency)")
        (Some 5).
Proof.
  intros Hp Hn result.
  assert (extract file_ self
          = if set_ne names DATA_HEADERS
            then (after_preamble self p, inl header_error)
            else extract_lines file_ 5 [] (DictReader_rows file_)
                   (after_preamble self p)) as He.
  { by rewrite (extract_after_preamble _ _ p Hp), Hn. }
  assert (set_ne names DATA_HEADERS = false → result ≠ inl header_error)
    as Hacc.
  { intros Hs. unfold result. rewrite He, Hs.
    destruct (extract_lines _ _ _ _ _) as [self' [e|es]] eqn:E; simpl;
      [|done].
    intros [= ->]. apply extract_lines_position in E as (n & [= <-] & Hlt).
    lia. }
  assert (set_ne names DATA_HEADERS = true → result = inl header_error)
    as Hrej.
  { intros Hs. unfold result. by rewrite He, Hs. }
  split; [|split; [|split; [|split]]].
  - rewrite <- set_ne_false. destruct (set_ne names DATA_HEADERS).
    + split; [|done]. intros H. by destruct H; apply Hrej.
    + split; [done|]. intros _. by apply Hacc.
  - intros Hperm.
    assert (set_ne names DATA_HEADERS = false) as Hs.
    { apply set_ne_false. intros x. by rewrite Hperm. }
    split; [by apply Hacc|]. by rewrite He, Hs.
  - intros l1 l2 x _ Hx ->. apply Hrej, set_ne_true. intros H.
    apply Hx, H, elem_of_app. right. apply elem_of_cons. by left.
  - intros l1 l2 x Hperm ->. apply Hrej, set_ne_true. intros H.
    pose proof DATA_HEADERS_NoDup as Hnd. rewrite <- Hperm in Hnd.
    apply NoDup_app in Hnd as (_ & Hdisj & [Hx _]%NoDup_cons).
    assert (x ∈ l1 ++ l2) as [H1|H2]%elem_of_app.
    { apply H. rewrite <- Hperm. apply elem_of_app. right.
      apply elem_of_cons. by left. }
    + apply (Hdisj x H1). apply elem_of_cons. by left.
    + done.
  - reflexivity.
Qed.

Lemma table_header_validation_witness :
  let file_ := statement [reverse DATA_HEADERS; reverse purchase] in
  (extract file_ importer).2 ≠ inl header_error
  ∧ extract file_ importer
    = extract_lines file_ 5 [] (DictReader_rows file_)
        (after_preamble importer
           (mkdate 2023 1 1, mkdate 2023 1 31,
            "Old balance:;;;;1,234.56;EUR")).
Proof.
  refine (proj1 (proj2 (table_header_validation importer
            (statement [reverse DATA_HEADERS; reverse purchase])
            (mkdate 2023 1 1, mkdate 2023 1 31,
             "Old balance:;;;;1,234.56;EUR")
            (reverse DATA_HEADERS) _ _)) _);
    [vm_compute; reflexivity | vm_compute; reflexivity
    | apply reverse_Permutation].
Defined.

(** ** Failures and their position *)

(** C4 (as stated, refuted).  A data row whose amount is no number, or whose
    value date is no date, does not make [extract] raise the format error:
    the exception of the decimal module, or of [strptime], comes out, and it
    carries no line number. *)
Lemma every_failure_positioned_counterexample :
  (extract (statement [DATA_HEADERS; purchase; bad_number_row]) importer).2
  = inl InvalidOperation
  ∧ (extract (statement [DATA_HEADERS; purchase; bad_date_row]) importer).2
    = inl ValueError
  ∧ ¬ ∃ message n,
        (extract (statement [DATA_HEADERS; purchase; bad_number_row])
           importer).2
        = inl (InvalidFormatError message (Some n)).
Proof.
  split; [vm_compute; reflexivity|]. split; [vm_compute; reflexivity|].
  intros (message & n & H). vm_compute in H. discriminate.
Qed.

(** C4 (amended).  The checks that [extract] makes itself on the header
    line, on the table header and on a data row (currency, both or neither
    of debit and credit) raise the format error with the 1-based counter of
    the offending line: 1, 5, and 6 + i for the i-th row.  A number or a
    date of a data row that cannot be parsed is not turned into a format
    error: [InvalidOperation], respectively [ValueError], is raised, with no
    line number. *)
Theorem failures_and_their_position (self : CurrentAccount) (file_ : File) :
  let result := (extract file_ self).2 in
  (re_match (_expected_header_regex self) (strip (readline file_ 0)) = None →
   result
   = inl (InvalidFormatError
            ("Unexpected header '" +:+ strip (readline file_ 0) +:+ "'")
            (Some 1)))
  ∧ ∀ p, preamble self file_ = Some p →
    (∀ names, fieldnames file_ = Some names →
       set_ne names DATA_HEADERS = true → result = inl header_error)
    ∧ ∀ pre line post kinds,
        table_header_ok file_ = true →
        DictReader_rows file_ = pre ++ line :: post →
        mapM (classify (currency self)) pre = Some kinds →
        let lineno := 6 + length pre in
        let unexpected_currency : exn + list Transaction :=
          inl (InvalidFormatError
                 ("Unexpected currency " +:+ fmt (cell line "Currency"))
                 (Some lineno)) in
        (cell line "Booking date" = Some "Account balance" →
         (cell line "IBAN" ≠ Some (currency self) →
          result = unexpected_currency)
         ∧ (cell line "IBAN" = Some (currency self) →
            ∀ s, cell line "Payment Details" = Some s →
                 parse_decimal (Some s) = None →
                 result = inl InvalidOperation))
        ∧ (cell line "Booking date" ≠ Some "Account balance" →
           (cell line "Currency" ≠ Some (currency self) →
            result = unexpected_currency)
           ∧ (cell line "Currency" = Some (currency self) →
              (truthy (cell line "Debit") = true →
               truthy (cell line "Credit") = true →
               result
               = inl (InvalidFormatError
                        "Cannot have both debit and credit values"
                        (Some lineno)))
              ∧ (truthy (cell line "Debit") = false →
                 truthy (cell line "Credit") = false →
                 result
                 = inl (InvalidFormatError
                          "Neither debit not credit value found"
                          (Some lineno)))
              ∧ ∀ populated, exactly_one line = Some populated →
                  (parse_decimal populated = None →
                   result = inl InvalidOperation)
                  ∧ ∀ amount v,
                      parse_decimal populated = Some amount →
                      cell line "Value date" = Some v →
                      strptime v = None →
                      result = inl ValueError)).
Proof.
  intros result. split.
  { intros H. unfold result, extract, next_line. run. by rewrite H. }
  intros p Hp. split.
  { intros names Hn Hs. unfold result.
    by rewrite (extract_after_preamble _ _ p Hp), Hn, Hs. }
  intros pre line post kinds Ht Hr Hk lineno unexpected_currency.
  destruct (extract_at_row _ _ _ _ _ _ _ Hp Ht Hr Hk) as [Hline He].
  set (self1 := with_closing (closing_of kinds) (after_preamble self p)) in *.
  assert (currency self1 = currency self) as Hcur
    by by unfold self1; destruct (closing_of kinds).
  fold lineno in He. unfold result. clear result. split.
  - intros Hb. rewrite extract_line_sentinel, Hcur in He by done.
    rewrite He. split.
    + intros Hi%pystr_eqb_false. by rewrite Hi.
    + intros Hi%pystr_eqb_true s Hs Hd. rewrite Hi, Hs.
      unfold parse_decimal in Hd. simpl in *. by rewrite Hd.
  - intros Hb. split.
    + intros Hc. rewrite extract_line_currency in He;
        [|done|done|by rewrite Hcur].
      by rewrite He.
    + intros Hc. split; [|split].
      * intros Hd Hcr.
        rewrite extract_line_ordinary in He; [|done|done|by rewrite Hcur].
        by rewrite He, Hd, Hcr.
      * intros Hd Hcr.
        rewrite extract_line_ordinary in He; [|done|done|by rewrite Hcur].
        by rewrite He, Hd, Hcr.
      * intros x Hx.
        rewrite (extract_line_populated _ _ _ _ _ x) in He;
          [|done|done|by rewrite Hcur|done].
        rewrite He.
        assert (∃ s, x = Some s) as [s ->].
        { unfold exactly_one in Hx.
          destruct (cell line "Debit") as [[|??]|],
                   (cell line "Credit") as [[|??]|]; simplify_eq/=; eauto. }
        unfold parse_decimal. simpl. split.
        -- by intros ->.
        -- intros amount v -> -> Hv. simpl. by rewrite Hv.
Qed.

Lemma failures_and_their_position_witness :
  (extract (statement [DATA_HEADERS; purchase; bad_number_row; salary])
     importer).2
  = inl InvalidOperation
  ∧ (extract (statement [DATA_HEADERS; purchase; dollar_row; salary])
       importer).2
    = inl (InvalidFormatError "Unexpected currency USD" (Some 7)).
Proof.
  split.
  - refine (proj1 (proj2 (proj2 (proj2 (proj2 (proj2
              (proj2 (failures_and_their_position importer
                 (statement [DATA_HEADERS; purchase; bad_number_row; salary]))
                 (mkdate 2023 1 1, mkdate 2023 1 31,
                  "Old balance:;;;;1,234.56;EUR") _)
              [DictReader_row DATA_HEADERS purchase]
              (DictReader_row DATA_HEADERS bad_number_row)
              [DictReader_row DATA_HEADERS salary]
              [TransactionRow (Finite false 5000 (-2)) (mkdate 2023 1 5)
                 "Acme"] _ _ _) _) _))
              (Some "five") _) _);
      vm_compute; first [reflexivity | discriminate].
  - refine (proj1 (proj2 (proj2 (proj2
              (failures_and_their_position importer
                 (statement [DATA_HEADERS; purchase; dollar_row; salary]))
                 (mkdate 2023 1 1, mkdate 2023 1 31,
                  "Old balance:;;;;1,234.56;EUR") _)
              [DictReader_row DATA_HEADERS purchase]
              (DictReader_row DATA_HEADERS dollar_row)
              [DictReader_row DATA_HEADERS salary]
              [TransactionRow (Finite false 5000 (-2)) (mkdate 2023 1 5)
                 "Acme"] _ _ _) _) _);
      vm_compute; first [reflexivity | discriminate].
Defined.

(** ** Regular expressions: the matcher and the language *)

Lemma append_nil_l (s : string) : "" +:+ s = s.
Proof. reflexivity. Qed.

Lemma append_cons (c : ascii) (s1 s2 : string) :
  String c s1 +:+ s2 = String c (s1 +:+ s2).
Proof. reflexivity. Qed.

Lemma append_nil_r (s : string) : s +:+ "" = s.
Proof. induction s as [|c s IH]; [done|]. by rewrite append_cons, IH. Qed.

Lemma append_assoc (s1 s2 s3 : string) :
  (s1 +:+ s2) +:+ s3 = s1 +:+ s2 +:+ s3.
Proof.
  induction s1 as [|c s1 IH]; [done|]. by rewrite !append_cons, IH.
Qed.

Lemma append_nil_inv (s1 s2 : string) : s1 +:+ s2 = "" → s1 = "" ∧ s2 = "".
Proof. by destruct s1. Qed.

Lemma append_cons_inv (s1 s2 s : string) (c : ascii) :
  s1 +:+ s2 = String c s →
  (s1 = "" ∧ s2 = String c s) ∨ ∃ s1', s1 = String c s1' ∧ s = s1' +:+ s2.
Proof.
  destruct s1 as [|c' s1]; [by left|].
  rewrite append_cons. intros [= -> <-]. right. eauto.
Qed.

Lemma Matches_Void (s : string) : ¬ Matches Void s.
Proof. inversion 1. Qed.

Lemma Matches_Eps (s : string) : Matches Eps s ↔ s = "".
Proof. split; [by inversion 1|intros ->; constructor]. Qed.

Lemma Matches_Seq (r1 r2 : regex) (s : string) :
  Matches (Seq r1 r2) s ↔
  ∃ s1 s2, s = s1 +:+ s2 ∧ Matches r1 s1 ∧ Matches r2 s2.
Proof.
  split.
  - inversion 1; subst; eauto.
  - intros (s1 & s2 & -> & H1 & H2). by constructor.
Qed.

Lemma Matches_Sym (k : cset) (s : string) :
  Matches (Sym k) s ↔ ∃ c, s = String c "" ∧ cset_mem k c = true.
Proof.
  split.
  - inversion 1; subst; eauto.
  - intros (c & -> & H). by constructor.
Qed.

Lemma Matches_Alt (r1 r2 : regex) (s : string) :
  Matches (Alt r1 r2) s ↔ Matches r1 s ∨ Matches r2 s.
Proof.
  split.
  - inversion 1; subst; eauto.
  - intros [H|H]; [by apply MAltL|by apply MAltR].
Qed.

Lemma Matches_Star_cons (r : regex) (c : ascii) (s : string) :
  Matches (Star r) (String c s) ↔
  ∃ s1 s2, s = s1 +:+ s2 ∧ Matches r (String c s1) ∧ Matches (Star r) s2.
Proof.
  split.
  - intros H. remember (String c s) as t eqn:Et.
    remember (Star r) as r' eqn:Er.
    destruct H as [| | | | | |r0 c0 s1 s2 H1 H2]; try done.
    injection Er as ->. rewrite append_cons in Et. injection Et as -> <-.
    eauto.
  - intros (s1 & s2 & -> & H1 & H2). rewrite <- append_cons.
    by constructor.
Qed.

Lemma nullable_Matches (r : regex) : nullable r = true ↔ Matches r "".
Proof.
  induction r as [| |k|r1 IH1 r2 IH2|r1 IH1 r2 IH2|r IH]; simpl.
  - split; [done|]. by intros ?%Matches_Void.
  - by rewrite Matches_Eps.
  - rewrite Matches_Sym. split; [done|]. by intros (c & [=] & _).
  - rewrite andb_true_iff, IH1, IH2, Matches_Seq. split.
    + intros [H1 H2]. by exists "", "".
    + intros (s1 & s2 & E & H1 & H2). symmetry in E.
      by apply append_nil_inv in E as [-> ->].
  - by rewrite orb_true_iff, IH1, IH2, Matches_Alt.
  - split; [constructor|done].
Qed.

Lemma deriv_Matches (c : ascii) (r : regex) :
  ∀ s, Matches (deriv c r) s ↔ Matches r (String c s).
Proof.
  induction r as [| |k|r1 IH1 r2 IH2|r1 IH1 r2 IH2|r IH]; intros s; simpl.
  - split; by intros ?%Matches_Void.
  - split; [by intros ?%Matches_Void|by intros [=]%Matches_Eps].
  - rewrite Matches_Sym. destruct (cset_mem k c) eqn:E.
    + rewrite Matches_Eps. split.
      * intros ->. eauto.
      * by intros (c' & [= -> ->] & _).
    + split; [by intros ?%Matches_Void|].
      intros (c' & [= -> ->] & Hc). congruence.
  - assert (Matches (Seq r1 r2) (String c s) ↔
            Matches (Seq (deriv c r1) r2) s
            ∨ (nullable r1 = true ∧ Matches (deriv c r2) s)) as Hb.
    { rewrite !Matches_Seq, nullable_Matches, IH2. split.
      - intros (s1 & s2 & E & H1 & H2). symmetry in E.
        apply append_cons_inv in E as [[-> ->]|(s1' & -> & ->)].
        + by right.
        + left. exists s1', s2. split; [done|]. by rewrite IH1.
      - intros [(s1 & s2 & -> & H1 & H2)|[H1 H2]].
        + exists (String c s1), s2. split; [done|]. by rewrite <- IH1.
        + by exists "", (String c s). }
    rewrite Hb. destruct (nullable r1).
    + rewrite Matches_Alt. split; [intros [H|H]|intros [H|[_ H]]]; auto.
    + split; [auto|by intros [H|[[=] _]]].
  - by rewrite !Matches_Alt, IH1, IH2.
  - rewrite Matches_Star_cons, Matches_Seq.
    by setoid_rewrite IH.
Qed.

(** The derivative matcher decides the language. *)
Lemma accepts_Matches (s : string) :
  ∀ r, accepts r s = true ↔ Matches r s.
Proof.
  induction s as [|c s IH]; intros r; simpl.
  - apply nullable_Matches.
  - by rewrite IH, deriv_Matches.
Qed.

Lemma span_cons (ml : bool) (r : regex) (c : ascii) (s : string) :
  span ml r (String c s)
  = if nullable r && at_dollar ml (String c s) then Some ""
    else String c <$> span ml (deriv c r) s.
Proof. reflexivity. Qed.

(** [span] finds a match exactly when some prefix of the text is in the
    language and ends where [$] matches. *)
Lemma span_is_Some (ml : bool) (s : string) :
  ∀ r, is_Some (span ml r s) ↔
       ∃ p rest, s = p +:+ rest ∧ Matches r p ∧ at_dollar ml rest = true.
Proof.
  induction s as [|c s IH]; intros r.
  - simpl. destruct (nullable r) eqn:En; simpl.
    + split; [|eauto]. intros _. exists "", "".
      split; [done|]. split; [by apply nullable_Matches|done].
    + split; [by intros [? [=]]|].
      intros (pre & rest & E & Hm & _). symmetry in E.
      apply append_nil_inv in E as [-> ->].
      apply nullable_Matches in Hm. congruence.
  - rewrite span_cons.
    destruct (nullable r && at_dollar ml (String c s)) eqn:En.
    + split; [|eauto]. intros _. apply andb_true_iff in En as [En Hd].
      exists "", (String c s).
      split; [done|]. split; [by apply nullable_Matches|done].
    + rewrite fmap_is_Some, IH. split.
      * intros (pre & rest & -> & Hm & Hd).
        exists (String c pre), rest.
        split; [done|]. split; [by apply deriv_Matches|done].
      * intros (pre & rest & E & Hm & Hd).
        symmetry in E.
        apply append_cons_inv in E as [[-> ->]|(pre' & -> & ->)].
        -- apply nullable_Matches in Hm. rewrite Hm, Hd in En. done.
        -- exists pre', rest. split; [done|].
           split; [by apply deriv_Matches|done].
Qed.

Lemma Matches_Lit (t s : string) : Matches (Lit t) s ↔ s = t.
Proof.
  revert s. induction t as [|c t IH]; intros s; simpl.
  - split; [by inversion 1|intros ->; constructor].
  - rewrite Matches_Seq. split.
    + intros (s1 & s2 & -> & (c' & -> & Hc)%Matches_Sym & ->%IH).
      simpl in Hc. apply Ascii.eqb_eq in Hc as ->. done.
    + intros ->. exists (String c ""), t. split; [done|].
      split; [|by apply IH]. constructor. simpl. apply Ascii.eqb_refl.
Qed.

Lemma Matches_Star_Sym (k : cset) (s : string) :
  Matches (Star (Sym k)) s ↔ all_of k s = true.
Proof.
  split.
  - remember (Star (Sym k)) as r eqn:Er. induction 1; try done.
    injection Er as ->.
    match goal with H : Matches (Sym _) _ |- _ =>
      apply Matches_Sym in H as (c' & [= -> ->] & Hc) end.
    rewrite append_cons, append_nil_l. simpl. rewrite Hc. simpl. auto.
  - induction s as [|c s IH]; simpl; [constructor|].
    intros [Hc Hs]%andb_true_iff.
    apply (MStarS (Sym k) c "" s); [by constructor|by apply IH].
Qed.

(** ** [identify] *)

Lemma Matches_header (branch number account cur enc p : string) :
  Matches (body (_expected_header_regex (init branch number account cur enc)))
    p
  ↔ header_text branch number p.
Proof.
  unfold header_text. cbn [init _expected_header_regex body space]. split.
  - intros (? & ? & -> & ->%Matches_Lit & H)%Matches_Seq.
    apply Matches_Seq in H as (? & ? & -> & (w1 & -> & H1)%Matches_Sym & H).
    apply Matches_Seq in H as (mid & ? & -> & Hm%Matches_Star_Sym & H).
    apply Matches_Seq in H as (? & ? & -> & ->%Matches_Lit & H).
    apply Matches_Seq in H as (? & ? & -> & (w2 & -> & H2)%Matches_Sym & H).
    apply Matches_Seq in H as (? & ? & -> & ->%Matches_Lit & H).
    apply Matches_Seq in H as (? & ? & -> & (w3 & -> & H3)%Matches_Sym & H).
    apply Matches_Seq in H as (? & ? & -> & ->%Matches_Lit & H).
    apply Matches_Seq in H as (? & ? & -> & (w4 & -> & H4)%Matches_Sym & H).
    apply Matches_Lit in H as ->.
    exists w1, w2, w3, w4, mid. by rewrite !append_cons, !append_nil_l.
  - intros (w1 & w2 & w3 & w4 & mid & -> & H1 & H2 & H3 & H4 & Hm).
    apply Matches_Seq. eexists _, _. split; [done|].
    split; [by apply Matches_Lit|].
    change (String w1 mid +:+ ?t) with (String w1 "" +:+ mid +:+ t).
    apply MSeq; [by constructor|].
    apply MSeq; [by apply Matches_Star_Sym|].
    apply MSeq; [by apply Matches_Lit|].
    change (String w2 "number:" +:+ ?t)
      with (String w2 "" +:+ "number:" +:+ t).
    apply MSeq; [by constructor|].
    apply MSeq; [by apply Matches_Lit|].
    change (String w3 branch +:+ ?t) with (String w3 "" +:+ branch +:+ t).
    apply MSeq; [by constructor|].
    apply MSeq; [by apply Matches_Lit|].
    change (String w4 number) with (String w4 "" +:+ number).
    apply MSeq; [by constructor|by apply Matches_Lit].
Qed.

Lemma at_dollar_multiline (rest : string) :
  at_dollar true rest = true ↔ rest = "" ∨ ∃ rest', rest = String newline rest'.
Proof.
  destruct rest as [|c rest]; simpl; [by split; auto|].
  rewrite andb_true_r, Ascii.eqb_eq. split.
  - intros ->. eauto.
  - by intros [[=]|(rest' & [= -> _])].
Qed.

(** C8 (as stated, refuted).  The header pattern is found in the content of
    this file, on its second line, and [identify] returns [None]. *)
Lemma identify_anywhere_counterexample :
  is_Some (re_search (_expected_header_regex importer)
             (contents header_on_second_line))
  ∧ identify importer header_on_second_line = None
  ∧ ¬ (is_Some (identify importer header_on_second_line)
       ↔ is_Some (re_search (_expected_header_regex importer)
                    (contents header_on_second_line))).
Proof.
  assert (re_search (_expected_header_regex importer)
            (contents header_on_second_line)
          = Some "Transactions Current Account;;;Customer number: 100 1234567")
    as Hs by (vm_compute; reflexivity).
  assert (identify importer header_on_second_line = None) as Hi
    by (vm_compute; reflexivity).
  rewrite Hs, Hi. split; [eauto|]. split; [done|].
  intros [_ H]. by destruct H as [? [=]]; eauto.
Qed.

(** C8 (amended).  [identify] returns a match, a truthy result, exactly when
    the header pattern matches at the very start of the raw content: the
    content begins with the text of a header line, which ends where a line
    ends.  A header line further down is not looked for. *)
Theorem identify_matches_at_start
    (branch number account cur enc : string) (file_ : File) :
  is_Some (identify (init branch number account cur enc) file_)
  ↔ ∃ p rest,
      contents file_ = p +:+ rest
      ∧ header_text branch number p
      ∧ (rest = "" ∨ ∃ rest', rest = String newline rest').
Proof.
  unfold identify, re_match. rewrite span_is_Some.
  change (multiline (_expected_header_regex _)) with true.
  by setoid_rewrite Matches_header; setoid_rewrite at_dollar_multiline.
Qed.

Lemma identify_matches_at_start_witness :
  is_Some (identify importer (statement [DATA_HEADERS; purchase]))
  ∧ ¬ ∃ p rest,
        contents header_on_second_line = p +:+ rest
        ∧ header_text "100" "1234567" p
        ∧ (rest = "" ∨ ∃ rest', rest = String newline rest').
Proof.
  split.
  - apply (proj2 (identify_matches_at_start "100" "1234567"
                    "Assets:DB:Current" "EUR" "utf-8"
                    (statement [DATA_HEADERS; purchase]))).
    exists "Transactions Current Account;;;Customer number: 100 1234567".
    eexists. split; [vm_compute; reflexivity|]. split; [|right; eauto].
    exists " "%char, " "%char, " "%char, " "%char, "Current Account".
    repeat split; vm_compute; reflexivity.
  - intros H.
    apply (proj2 (identify_matches_at_start "100" "1234567"
                    "Assets:DB:Current" "EUR" "utf-8"
                    header_on_second_line)) in H.
    vm_compute in H. by destruct H as [? [=]].
Defined.

(** * Further properties of the importer *)

(** ** The assignments of a call *)

Lemma apply_no_writes (self : CurrentAccount) :
  apply_writes no_writes self = self.
Proof. by destruct self. Qed.

Lemma apply_then_writes (w1 w2 : Writes) (self : CurrentAccount) :
  apply_writes (then_writes w1 w2) self
  = apply_writes w2 (apply_writes w1 self).
Proof.
  destruct w1 as [a1 b1 c1 d1], w2 as [a2 b2 c2 d2]. unfold apply_writes.
  simpl. by destruct a2, b2, c2, d2.
Qed.

Lemma apply_writes_twice (w : Writes) (self : CurrentAccount) :
  apply_writes w (apply_writes w self) = apply_writes w self.
Proof.
  destruct w as [a b c d]. unfold apply_writes. simpl. by destruct a, b, c, d.
Qed.

Lemma configuration_apply_writes (w : Writes) (self : CurrentAccount) :
  configuration (apply_writes w self) = configuration self.
Proof. done. Qed.

Lemma extract_line_writes (file_ : File) (lineno : nat)
    (entries : list Transaction) (line : row) (s1 s2 : CurrentAccount) :
  configuration s1 = configuration s2 →
  ∃ w r,
    extract_line file_ lineno entries line s1 = (apply_writes w s1, r)
    ∧ extract_line file_ lineno entries line s2 = (apply_writes w s2, r).
Proof.
  intros [= Ha Hc _ _ _ _]. unfold extract_line, getitem. run.
  rewrite Ha, Hc.
  repeat (case_match; simplify_eq; try done).
  all: first
    [ by exists no_writes; eexists; rewrite !apply_no_writes
    | by eexists (mkWrites None None None (Some _)), _ ].
Qed.

Lemma extract_lines_writes (file_ : File) (rows : list row) :
  ∀ lineno entries s1 s2,
  configuration s1 = configuration s2 →
  ∃ w r,
    extract_lines file_ lineno entries rows s1 = (apply_writes w s1, r)
    ∧ extract_lines file_ lineno entries rows s2 = (apply_writes w s2, r).
Proof.
  induction rows as [|line rows IH]; intros lineno entries s1 s2 Hc.
  - exists no_writes, (inr entries). by rewrite !apply_no_writes.
  - simpl. run.
    destruct (extract_line_writes file_ (S lineno) entries line s1 s2 Hc)
      as (w & r & -> & ->).
    destruct r as [e|es]; [by eauto|].
    destruct (IH (S lineno) es (apply_writes w s1) (apply_writes w s2))
      as (w' & r' & -> & ->); [done|].
    exists (then_writes w w'), r'. by rewrite !apply_then_writes.
Qed.

Lemma extract_writes (file_ : File) (s1 s2 : CurrentAccount) :
  configuration s1 = configuration s2 →
  ∃ w r,
    extract file_ s1 = (apply_writes w s1, r)
    ∧ extract file_ s2 = (apply_writes w s2, r).
Proof.
  intros Hc. pose proof Hc as [= Ha Hcur _ Hh Hf Hb].
  unfold extract, next_line. run. rewrite Hh, Hf, Hb.
  destruct (negb _);
    [by exists no_writes; eexists; rewrite !apply_no_writes|].
  destruct (re_match (_from_to_regex s2) _) as [range|];
    [|by exists no_writes; eexists; rewrite !apply_no_writes].
  destruct (negb _);
    [by exists no_writes; eexists; rewrite !apply_no_writes|].
  destruct (strptime (substring 0 10 range)) as [d1|]; simpl;
    [|by exists no_writes; eexists; rewrite !apply_no_writes].
  destruct (strptime (substring 13 10 range)) as [d2|]; simpl;
    [|by eexists (mkWrites (Some d1) None None None), _].
  destruct (re_match (_starting_balance_regex s2) _) as [old|];
    [|by eexists (mkWrites (Some d1) (Some d2) None None), _].
  destruct (negb _);
    [by eexists (mkWrites (Some d1) (Some d2) None None), _|].
  simpl.
  destruct (negb _);
    [by eexists (mkWrites (Some d1) (Some d2) (Some old) None), _|].
  destruct (fieldnames file_) as [names|];
    [|by eexists (mkWrites (Some d1) (Some d2) (Some old) None), _].
  destruct (set_ne names DATA_HEADERS);
    [by eexists (mkWrites (Some d1) (Some d2) (Some old) None), _|].
  set (w := mkWrites (Some d1) (Some d2) (Some old) None).
  destruct (extract_lines_writes file_ (DictReader_rows file_) 5 []
              (apply_writes w s1) (apply_writes w s2))
    as (w' & r' & H1 & H2); [done|].
  exists (then_writes w w'), r'. rewrite !apply_then_writes.
  split; [exact H1|exact H2].
Qed.

(** X1.  What [extract] returns or raises depends on the file and on the
    configuration only, never on the period or balances that an earlier call
    left on the object; and the two runs assign the same attributes the same
    values. *)
Theorem extract_ignores_stored_state (file_ : File) (s1 s2 : CurrentAccount) :
  configuration s1 = configuration s2 →
  (extract file_ s1).2 = (extract file_ s2).2
  ∧ ∃ w, (extract file_ s1).1 = apply_writes w s1
         ∧ (extract file_ s2).1 = apply_writes w s2.
Proof.
  intros (w & r & -> & ->)%(extract_writes file_). eauto.
Qed.

Lemma extract_ignores_stored_state_witness :
  let used :=
    (extract (statement [DATA_HEADERS; salary; balance_row "9.99"])
       importer).1 in
  let file_ := statement [DATA_HEADERS; purchase; both_row] in
  (extract file_ importer).2 = (extract file_ used).2
  ∧ ∃ w, (extract file_ importer).1 = apply_writes w importer
         ∧ (extract file_ used).1 = apply_writes w used.
Proof.
  refine (extract_ignores_stored_state
            (statement [DATA_HEADERS; purchase; both_row]) importer
            (extract (statement [DATA_HEADERS; salary; balance_row "9.99"])
               importer).1 _).
  vm_compute; reflexivity.
Defined.

(** X2.  Running [extract] again on the same file, from the object the first
    run left, gives the same result and leaves the object as it is: the call
    is idempotent, whether it returns or raises. *)
Theorem extract_idempotent (file_ : File) (self : CurrentAccount) :
  extract file_ (extract file_ self).1 = extract file_ self.
Proof.
  destruct (extract_writes file_ self (extract file_ self).1)
    as (w & r & H1 & H2).
  { symmetry. apply extract_configuration. }
  rewrite H2, H1. simpl. by rewrite apply_writes_twice.
Qed.

(** ** The preamble, line by line *)

(** X3.  When the first line, stripped, does not match the header pattern,
    [extract] raises the header error for line 1 and the object is left
    untouched, whatever follows in the file.  In particular an empty file,
    or one that starts with a blank line, is rejected in this way by every
    importer. *)
Theorem header_mismatch (file_ : File) (self : CurrentAccount) :
  (re_match (_expected_header_regex self) (strip (readline file_ 0)) = None →
   extract file_ self
   = (self,
      inl (InvalidFormatError
             ("Unexpected header '" +:+ strip (readline file_ 0) +:+ "'")
             (Some 1))))
  ∧ ∀ branch number,
      constructed branch number self →
      strip (readline file_ 0) = "" →
      extract file_ self
      = (self, inl (InvalidFormatError "Unexpected header ''" (Some 1))).
Proof.
  assert (∀ line, strip (readline file_ 0) = line →
                  re_match (_expected_header_regex self) line = None →
                  extract file_ self
                  = (self,
                     inl (InvalidFormatError
                            ("Unexpected header '" +:+ line +:+ "'")
                            (Some 1)))) as H.
  { intros line Hl Hm. unfold extract, next_line. run. by rewrite Hl, Hm. }
  split; [by apply H|].
  intros branch number (a & c & e & [= _ _ _ Hh _ _]) Hl.
  apply (H "" Hl). by rewrite Hh.
Qed.

Lemma header_mismatch_witness :
  extract (file_of [] []) importer
  = (importer, inl (InvalidFormatError "Unexpected header ''" (Some 1))).
Proof.
  refine (proj2 (header_mismatch (file_of [] []) importer)
            "100" "1234567" _ _).
  - exists "Assets:DB:Current", "EUR", "utf-8". reflexivity.
  - reflexivity.
Defined.

Lemma constructed_ngroups (branch number : string) (self : CurrentAccount) :
  constructed branch number self →
  ngroups (_from_to_regex self) = 2
  ∧ ngroups (_starting_balance_regex self) = 4.
Proof. intros (a & c & e & [= _ _ _ _ -> ->]). done. Qed.

(** X4.  The second line, the header being accepted.  A line that does not
    match the pattern raises the format error without a line number and
    leaves the object untouched.  A line that matches the pattern but whose
    first date is not a date of the calendar raises [ValueError], again with
    the object untouched; when only the second date is wrong, [ValueError] is
    raised after the first date has been stored as the start of the
    period. *)
Theorem period_line_failures (file_ : File) (self : CurrentAccount)
    (branch number : string) :
  constructed branch number self →
  is_Some (re_match (_expected_header_regex self) (strip (readline file_ 0))) →
  let line := strip (readline file_ 1) in
  (re_match (_from_to_regex self) line = None →
   extract file_ self
   = (self,
      inl (InvalidFormatError
             ("Unexpected from and to dates '" +:+ line +:+ "'") None)))
  ∧ ∀ range, re_match (_from_to_regex self) line = Some range →
      (strptime (substring 0 10 range) = None →
       extract file_ self = (self, inl ValueError))
      ∧ ∀ date_from,
          strptime (substring 0 10 range) = Some date_from →
          strptime (substring 13 10 range) = None →
          extract file_ self = (set_date_from date_from self, inl ValueError).
Proof.
  intros [Hg _]%constructed_ngroups Hh%(bool_decide_eq_true_2 _) line.
  unfold extract, next_line. run. fold line. rewrite Hh, Hg. simpl.
  split.
  - by intros ->.
  - intros range ->. split.
    + by intros ->.
    + by intros date_from -> ->.
Qed.

Lemma period_line_failures_witness :
  extract (file_of [header_line; "01/01/2023 - 02/30/2023" +:+ nl] [])
    importer
  = (set_date_from (mkdate 2023 1 1) importer, inl ValueError)
  ∧ extract (file_of [header_line; "1/1/2023 - 1/31/2023" +:+ nl] [])
      importer
    = (importer,
       inl (InvalidFormatError
              "Unexpected from and to dates '1/1/2023 - 1/31/2023'" None)).
Proof.
  split.
  - refine (proj2 (proj2 (period_line_failures
              (file_of [header_line; "01/01/2023 - 02/30/2023" +:+ nl] [])
              importer "100" "1234567" _ _)
              "01/01/2023 - 02/30/2023" _) (mkdate 2023 1 1) _ _);
      try (vm_compute; reflexivity).
    + exists "Assets:DB:Current", "EUR", "utf-8". reflexivity.
    + vm_compute. eauto.
  - refine (proj1 (period_line_failures
              (file_of [header_line; "1/1/2023 - 1/31/2023" +:+ nl] [])
              importer "100" "1234567" _ _) _);
      try (vm_compute; reflexivity).
    + exists "Assets:DB:Current", "EUR", "utf-8". reflexivity.
    + vm_compute. eauto.
Defined.

(** X5.  The third and fourth line, the first two being accepted with the
    period [date_from], [date_to].  A third line that does not match the
    old-balance pattern, or a fourth line that is not the fixed sentence,
    raises the format error without a line number; by then the period of
    this file is stored on the object, and for the fourth line also the text
    of the third. *)
Theorem balance_and_pending_line_failures (file_ : File)
    (self : CurrentAccount) (branch number : string) (range : string)
    (date_from date_to : date) :
  constructed branch number self →
  is_Some (re_match (_expected_header_regex self) (strip (readline file_ 0))) →
  re_match (_from_to_regex self) (strip (readline file_ 1)) = Some range →
  strptime (substring 0 10 range) = Some date_from →
  strptime (substring 13 10 range) = Some date_to →
  let with_period := set_date_to date_to (set_date_from date_from self) in
  let line3 := strip (readline file_ 2) in
  let line4 := strip (readline file_ 3) in
  (re_match (_starting_balance_regex self) line3 = None →
   extract file_ self
   = (with_period,
      inl (InvalidFormatError ("Unexpected old balance '" +:+ line3 +:+ "'")
             None)))
  ∧ ∀ old, re_match (_starting_balance_regex self) line3 = Some old →
      line4 ≠ line4text →
      extract file_ self
      = (set_starting_balance old with_period,
         inl (InvalidFormatError
                ("Unexpected line '" +:+ line4 +:+ "' (expected "
                 +:+ line4text +:+ ")")
                None)).
Proof.
  intros [Hg Hg']%constructed_ngroups Hh%(bool_decide_eq_true_2 _) Hr Hd1 Hd2
    with_period line3 line4.
  unfold extract, next_line. run. fold line3 line4.
  rewrite Hh, Hr, Hg, Hg'. simpl. rewrite Hd1, Hd2. simpl.
  split.
  - by intros ->.
  - intros old -> Hl%String.eqb_neq. by rewrite Hl.
Qed.

Lemma balance_and_pending_line_failures_witness :
  extract (file_of [header_line; period_line;
                    "Old balance:;;;;1,234.56;USD" +:+ nl] []) importer
  = (set_date_to (mkdate 2023 1 31) (set_date_from (mkdate 2023 1 1) importer),
     inl (InvalidFormatError
            "Unexpected old balance 'Old balance:;;;;1,234.56;USD'" None)).
Proof.
  refine (proj1 (balance_and_pending_line_failures
            (file_of [header_line; period_line;
                      "Old balance:;;;;1,234.56;USD" +:+ nl] [])
            importer "100" "1234567" "01/01/2023 - 01/31/2023"
            (mkdate 2023 1 1) (mkdate 2023 1 31) _ _ _ _ _) _);
    try (vm_compute; reflexivity).
  - exists "Assets:DB:Current", "EUR", "utf-8". reflexivity.
  - vm_compute. eauto.
Defined.

(** X6.  A file that ends after its four preamble lines: the reader has no
    field names, and [extract] raises [TypeError], not the format error; the
    period and the old-balance text of the file are stored on the object. *)
Theorem missing_table (file_ : File) (self : CurrentAccount)
    (p : date * date * string) :
  preamble self file_ = Some p →
  records file_ = [] →
  extract file_ self = (after_preamble self p, inl TypeError).
Proof.
  intros Hp Hr. rewrite (extract_after_preamble _ _ p Hp).
  unfold fieldnames. by rewrite Hr.
Qed.

Lemma missing_table_witness :
  extract (statement []) importer
  = (after_preamble importer
       (mkdate 2023 1 1, mkdate 2023 1 31, "Old balance:;;;;1,234.56;EUR"),
     inl TypeError).
Proof.
  refine (missing_table (statement []) importer
            (mkdate 2023 1 1, mkdate 2023 1 31,
             "Old balance:;;;;1,234.56;EUR") _ _);
    vm_compute; reflexivity.
Defined.

(** ** When [extract] returns *)

Lemma format_number_inr (v : pystr) (d : Decimal) :
  format_number v = inr d ↔ parse_decimal v = Some d.
Proof.
  unfold format_number, parse_decimal. destruct v as [s|]; simpl.
  - destruct (Decimal_of_string _); split; by intros [= ->].
  - done.
Qed.

Lemma extract_line_returns (file_ : File) (lineno : nat)
    (entries entries' : list Transaction) (line : row)
    (self self' : CurrentAccount) :
  has_columns line →
  extract_line file_ lineno entries line self = (self', inr entries') →
  is_Some (classify (currency self) line).
Proof.
  intros H.
  destruct (decide (cell line "Booking date" = Some "Account balance"))
    as [Hb|Hb].
  - rewrite extract_line_sentinel by done.
    destruct (pystr_eqb (cell line "IBAN") _) eqn:Hi; [|done].
    destruct (format_number _) as [e|b] eqn:Hf; [done|]. intros _.
    exists (TerminalRow b). apply classify_terminal.
    split; [by apply pystr_eqb_true|]. split; [done|].
    by apply format_number_inr.
  - destruct (decide (cell line "Currency" = Some (currency self)))
      as [Hc|Hc]; [|by rewrite extract_line_currency].
    rewrite extract_line_ordinary by done.
    destruct (truthy (cell line "Debit")) eqn:Hd,
             (truthy (cell line "Credit")) eqn:Hcr; try done.
    all: destruct (format_number _) as [e|v] eqn:Hf; [done|].
    all: destruct (cell line "Value date") as [w|] eqn:Hv; [|done].
    all: destruct (strptime w) as [d|] eqn:Hw; [|done].
    all: destruct (cell line "Beneficiary / Originator") as [b|] eqn:Hp;
      [|done].
    all: intros _; exists (TransactionRow v d (strip b)).
    all: apply classify_transaction.
    all: split; [by apply pystr_eqb_false|].
    all: split; [by apply pystr_eqb_true|].
    all: unfold exactly_one; rewrite Hd, Hcr, Hv, Hp; simpl.
    all: split; [eexists; split; [done|by apply format_number_inr]|done].
Qed.

Lemma extract_lines_returns (file_ : File) (rows : list row) :
  ∀ lineno entries entries' self self',
  Forall has_columns rows →
  extract_lines file_ lineno entries rows self = (self', inr entries') →
  is_Some (mapM (classify (currency self)) rows).
Proof.
  induction rows as [|line rows IH];
    intros lineno entries entries' self self' Hcol; [by eexists|].
  apply Forall_cons in Hcol as [Hline Hcol]. intros Hr.
  simpl in Hr. revert Hr. run.
  destruct (extract_line _ _ _ _ _) as [self1 [e|es]] eqn:E; [done|].
  intros Hr.
  pose proof (extract_line_state file_ (S lineno) entries line self) as Hs.
  rewrite E in Hs. destruct Hs as ([= _ Hcur _ _ _ _] & _). simpl in Hcur.
  apply extract_line_returns in E as [k Hk]; [|done].
  apply IH in Hr as [ks Hks]; [|done]. rewrite Hcur in Hks.
  exists (k :: ks). apply mapM_Some. constructor; [done|by apply mapM_Some].
Qed.

Lemma extract_returns_preamble (file_ : File) (self : CurrentAccount)
    (entries : list Transaction) :
  (extract file_ self).2 = inr entries →
  ∃ p, preamble self file_ = Some p ∧ table_header_ok file_ = true.
Proof.
  unfold extract, preamble, table_header_ok, next_line. run.
  destruct (bool_decide (is_Some (re_match (_expected_header_regex self) _)));
    simpl; [|done].
  destruct (re_match (_from_to_regex self) _) as [range|]; simpl; [|done].
  destruct (ngroups (_from_to_regex self) =? 2)%nat; simpl; [|done].
  destruct (strptime (substring 0 10 range)) as [d1|]; simpl; [|done].
  destruct (strptime (substring 13 10 range)) as [d2|]; simpl; [|done].
  destruct (re_match (_starting_balance_regex self) _) as [old|];
    simpl; [|done].
  destruct (ngroups (_starting_balance_regex self) =? 4)%nat;
    simpl; [|done].
  destruct (String.eqb _ line4text); simpl; [|done].
  destruct (fieldnames file_) as [names|]; [|done].
  destruct (set_ne names DATA_HEADERS); [done|]. eauto.
Qed.

Lemma extract_returns_kinds (file_ : File) (self : CurrentAccount)
    (entries : list Transaction) :
  (extract file_ self).2 = inr entries →
  ∃ p kinds,
    preamble self file_ = Some p
    ∧ table_header_ok file_ = true
    ∧ mapM (classify (currency self)) (DictReader_rows file_) = Some kinds
    ∧ entries = records_of self file_ 5 kinds.
Proof.
  intros He. destruct (extract_returns_preamble _ _ _ He) as (p & Hp & Ht).
  rewrite (extract_head _ _ p Hp Ht) in He.
  destruct (extract_lines _ _ _ _ _) as [self' r] eqn:E.
  simpl in He. subst r.
  pose proof E as [kinds Hk]%extract_lines_returns;
    [|by apply DictReader_rows_has_columns].
  exists p, kinds. split; [done|]. split; [done|]. split; [done|].
  rewrite (extract_lines_classified _ _ kinds) in E;
    [|by apply DictReader_rows_has_columns|done].
  injection E as _ <-. simpl. by apply records_of_frame.
Qed.

(** X7.  [extract] returns a list of entries exactly when the statement is
    well formed: the four preamble lines and the table header are accepted
    and every row of the table is a well-formed terminal or transaction row.
    The entries are then the records of the transaction rows, in order.  If
    anything is wrong anywhere, nothing is returned. *)
Theorem extract_returns_iff_well_formed (file_ : File)
    (self : CurrentAccount) (entries : list Transaction) :
  (extract file_ self).2 = inr entries
  ↔ ∃ p kinds,
      preamble self file_ = Some p
      ∧ table_header_ok file_ = true
      ∧ mapM (classify (currency self)) (DictReader_rows file_) = Some kinds
      ∧ entries = records_of self file_ 5 kinds.
Proof.
  split; [apply extract_returns_kinds|].
  intros (p & kinds & Hp & Ht & Hk & ->).
  by rewrite (extract_classified _ _ p kinds Hp Ht Hk).
Qed.

Lemma records_of_emitted (self : CurrentAccount) (file_ : File)
    (kinds : list RowKind) :
  ∀ lineno,
  Forall (fun t => emitted_by self file_ t
                   ∧ lineno < (meta t).2 ≤ lineno + length kinds)
    (records_of self file_ lineno kinds).
Proof.
  induction kinds as [|[c|a d p] kinds IH]; intros lineno; simpl; [done|..].
  - eapply Forall_impl; [apply IH|]. intros t [He Hl]. split; [done|lia].
  - constructor.
    + split; [|simpl; lia]. unfold emitted_by. simpl. eauto 10.
    + eapply Forall_impl; [apply IH|]. intros t [He Hl]. split; [done|lia].
Qed.





(** ** What [extract] never raises, and what it leaves alone *)

Lemma extract_line_no_KeyError (file_ : File) (lineno : nat)
    (entries : list Transaction) (line : row) (self : CurrentAccount)
    (k : string) :
  has_columns line →
  (extract_line file_ lineno entries line self).2 ≠ inl (KeyError k).
Proof.
  intros H. unfold extract_line, format_number. columns H. run.
  repeat (case_match; simplify_eq; try done).
Qed.

Lemma extract_lines_no_KeyError (file_ : File) (rows : list row) (k : string) :
  ∀ lineno entries self,
  Forall has_columns rows →
  (extract_lines file_ lineno entries rows self).2 ≠ inl (KeyError k).
Proof.
  induction rows as [|line rows IH]; intros lineno entries self Hcol; [done|].
  apply Forall_cons in Hcol as [Hline Hcol]. simpl. run.
  pose proof (extract_line_no_KeyError file_ (S lineno) entries line self k
                Hline) as H.
  destruct (extract_line _ _ _ _ _) as [self1 [e|es]]; [done|].
  by apply IH.
Qed.

(** X9.  [extract] never raises [KeyError]: the rows are read only after the
    header row has been found to name every column of the schema, and the
    reader gives every row a value, possibly [None], for each name of the
    header. *)
Theorem extract_no_KeyError (file_ : File) (self : CurrentAccount)
    (k : string) :
  (extract file_ self).2 ≠ inl (KeyError k).
Proof.
  unfold extract, next_line. run.
  destruct (negb _); [done|].
  destruct (re_match (_from_to_regex self) _) as [range|]; [|done].
  destruct (negb _); [done|].
  destruct (strptime (substring 0 10 range)) as [d1|]; simpl; [|done].
  destruct (strptime (substring 13 10 range)) as [d2|]; simpl; [|done].
  destruct (re_match (_starting_balance_regex self) _) as [old|]; [|done].
  destruct (negb _); [done|]. simpl.
  destruct (negb _); [done|].
  destruct (fieldnames file_) as [names|] eqn:Hn; [|done].
  destruct (set_ne names DATA_HEADERS) eqn:Hs; [done|].
  apply extract_lines_no_KeyError, DictReader_rows_has_columns.
  unfold table_header_ok. by rewrite Hn, Hs.
Qed.





(** ** What a transaction row is read for *)

Lemma extract_line_cells (file_ : File) (lineno : nat)
    (entries : list Transaction) (line line' : row) (self : CurrentAccount) :
  has_columns line → has_columns line' →
  is_transaction_row line → is_transaction_row line' →
  Forall (fun k => cell line' k = cell line k)
    ["Currency"; "Debit"; "Credit"; "Value date";
     "Beneficiary / Originator"] →
  extract_line file_ lineno entries line' self
  = extract_line file_ lineno entries line self.
Proof.
  intros H H' Hb Hb' Heq.
  apply Forall_cons in Heq as [Hc Heq]. apply Forall_cons in Heq as [Hd Heq].
  apply Forall_cons in Heq as [Hcr Heq]. apply Forall_cons in Heq as [Hv Heq].
  apply Forall_cons in Heq as [Hp _].
  destruct (decide (cell line "Currency" = Some (currency self))) as [E|E].
  - rewrite !extract_line_ordinary by (by rewrite ?Hc).
    by rewrite Hd, Hcr, Hv, Hp.
  - rewrite !extract_line_currency by (by rewrite ?Hc). by rewrite Hc.
Qed.

Lemma extract_line_swap (file_ : File) (lineno : nat)
    (entries : list Transaction) (line line' : row) (self : CurrentAccount) :
  has_columns line → has_columns line' →
  is_transaction_row line → is_transaction_row line' →
  cell line' "Debit" = cell line "Credit" →
  cell line' "Credit" = cell line "Debit" →
  Forall (fun k => cell line' k = cell line k)
    ["Currency"; "Value date"; "Beneficiary / Originator"] →
  extract_line file_ lineno entries line' self
  = extract_line file_ lineno entries line self.
Proof.
  intros H H' Hb Hb' Hd Hcr Heq.
  apply Forall_cons in Heq as [Hc Heq]. apply Forall_cons in Heq as [Hv Heq].
  apply Forall_cons in Heq as [Hp _].
  destruct (decide (cell line "Currency" = Some (currency self))) as [E|E].
  - rewrite !extract_line_ordinary by (by rewrite ?Hc).
    rewrite Hd, Hcr, Hv, Hp.
    by destruct (truthy (cell line "Debit")), (truthy (cell line "Credit")).
  - rewrite !extract_line_currency by (by rewrite ?Hc). by rewrite Hc.
Qed.

Lemma extract_line_file (f f' : File) (lineno : nat)
    (entries : list Transaction) (line : row) (self : CurrentAccount) :
  name f' = name f →
  extract_line f' lineno entries line self
  = extract_line f lineno entries line self.
Proof. intros Hn. unfold extract_line. by rewrite Hn. Qed.

Lemma extract_lines_file (f f' : File) (rows : list row) :
  name f' = name f →
  ∀ lineno entries self,
  extract_lines f' lineno entries rows self
  = extract_lines f lineno entries rows self.
Proof.
  intros Hn. induction rows as [|line rows IH]; intros lineno entries self;
    [done|].
  simpl. run. rewrite (extract_line_file f f') by done.
  destruct (extract_line _ _ _ _ _) as [self1 [e|es]]; [done|]. apply IH.
Qed.

(** [extract] reads a file for its name, its preamble lines, the header row
    and the rows of the reader. *)
Lemma extract_file (f f' : File) (self : CurrentAccount) :
  lines f' = lines f →
  fieldnames f' = fieldnames f →
  (∀ s, extract_lines f' 5 [] (DictReader_rows f') s
        = extract_lines f 5 [] (DictReader_rows f) s) →
  extract f' self = extract f self.
Proof.
  intros Hl Hf Hr. unfold extract, next_line, readline. run.
  rewrite Hl, Hf.
  destruct (negb _); [done|].
  destruct (re_match (_from_to_regex self) _) as [range|]; [|done].
  destruct (negb _); [done|].
  destruct (strptime (substring 0 10 range)) as [d1|]; simpl; [|done].
  destruct (strptime (substring 13 10 range)) as [d2|]; simpl; [|done].
  destruct (re_match (_starting_balance_regex self) _) as [old|]; [|done].
  destruct (negb _); [done|]. simpl.
  destruct (negb _); [done|].
  destruct (fieldnames f) as [names|]; [|done].
  destruct (set_ne names DATA_HEADERS); [done|]. apply Hr.
Qed.

(** Two files that differ in one row of the table. *)
Lemma extract_one_row (f f' : File) (self : CurrentAccount)
    (pre post : list row) (line line' : row) :
  name f' = name f → lines f' = lines f → fieldnames f' = fieldnames f →
  DictReader_rows f = pre ++ line :: post →
  DictReader_rows f' = pre ++ line' :: post →
  (∀ entries s,
     extract_line f (6 + length pre) entries line' s
     = extract_line f (6 + length pre) entries line s) →
  extract f' self = extract f self.
Proof.
  intros Hn Hl Hf Hr Hr' Hline. apply extract_file; [done..|].
  intros s. rewrite (extract_lines_file f f') by done.
  rewrite Hr, Hr', !extract_lines_app.
  destruct (extract_lines f 5 [] pre s) as [s1 [e|es]]; [done|].
  simpl. run. replace (S (5 + length pre)) with (6 + length pre) by lia.
  by rewrite Hline.
Qed.

(** X11.  A transaction row is read for five of its cells only: Currency,
    Debit, Credit, Value date and Beneficiary / Originator.  When one
    row of a table is replaced by a row that agrees with it on these cells,
    neither of them being the terminal row, [extract] does exactly as
    before, whatever the booking date, payment details, IBAN or other cells
    of the new row hold. *)
Theorem transaction_row_cells (f f' : File) (self : CurrentAccount)
    (pre post : list row) (line line' : row) :
  name f' = name f → lines f' = lines f → fieldnames f' = fieldnames f →
  table_header_ok f = true →
  DictReader_rows f = pre ++ line :: post →
  DictReader_rows f' = pre ++ line' :: post →
  is_transaction_row line → is_transaction_row line' →
  Forall (fun k => cell line' k = cell line k)
    ["Currency"; "Debit"; "Credit"; "Value date";
     "Beneficiary / Originator"] →
  extract f' self = extract f self.
Proof.
  intros Hn Hl Hf Ht Hr Hr' Hb Hb' Heq.
  assert (table_header_ok f' = true) as Ht'
    by (unfold table_header_ok in *; by rewrite Hf).
  pose proof (DictReader_rows_has_columns _ Ht) as Hc.
  pose proof (DictReader_rows_has_columns _ Ht') as Hc'.
  rewrite Hr in Hc. rewrite Hr' in Hc'.
  apply Forall_app in Hc as [_ [Hc _]%Forall_cons].
  apply Forall_app in Hc' as [_ [Hc' _]%Forall_cons].
  apply (extract_one_row f f' self pre post line line'); try done.
  intros entries s. by apply extract_line_cells.
Qed.

Lemma transaction_row_cells_witness :
  extract (statement [DATA_HEADERS; salary; purchase_rebooked;
                      balance_row "1,284.56"]) importer
  = extract (statement [DATA_HEADERS; salary; purchase;
                        balance_row "1,284.56"]) importer.
Proof.
  refine (transaction_row_cells
            (statement [DATA_HEADERS; salary; purchase;
                        balance_row "1,284.56"])
            (statement [DATA_HEADERS; salary; purchase_rebooked;
                        balance_row "1,284.56"])
            importer
            [DictReader_row DATA_HEADERS salary]
            [DictReader_row DATA_HEADERS (balance_row "1,284.56")]
            (DictReader_row DATA_HEADERS purchase)
            (DictReader_row DATA_HEADERS purchase_rebooked)
            _ _ _ _ _ _ _ _ _);
    try (vm_compute; reflexivity); try (vm_compute; discriminate).
  repeat constructor.
Defined.

(** X12.  [extract] applies no sign: a row is treated the same whether its
    amount stands in the Debit or in the Credit column.  When the two cells
    of one transaction row of a table are swapped, [extract] returns the
    same entries, with the same amount, or raises the same error. *)
Theorem debit_credit_swap (f f' : File) (self : CurrentAccount)
    (pre post : list row) (line line' : row) :
  name f' = name f → lines f' = lines f → fieldnames f' = fieldnames f →
  table_header_ok f = true →
  DictReader_rows f = pre ++ line :: post →
  DictReader_rows f' = pre ++ line' :: post →
  is_transaction_row line → is_transaction_row line' →
  cell line' "Debit" = cell line "Credit" →
  cell line' "Credit" = cell line "Debit" →
  Forall (fun k => cell line' k = cell line k)
    ["Currency"; "Value date"; "Beneficiary / Originator"] →
  extract f' self = extract f self.
Proof.
  intros Hn Hl Hf Ht Hr Hr' Hb Hb' Hd Hcr Heq.
  assert (table_header_ok f' = true) as Ht'
    by (unfold table_header_ok in *; by rewrite Hf).
  pose proof (DictReader_rows_has_columns _ Ht) as Hc.
  pose proof (DictReader_rows_has_columns _ Ht') as Hc'.
  rewrite Hr in Hc. rewrite Hr' in Hc'.
  apply Forall_app in Hc as [_ [Hc _]%Forall_cons].
  apply Forall_app in Hc' as [_ [Hc' _]%Forall_cons].
  apply (extract_one_row f f' self pre post line line'); try done.
  intros entries s. by apply extract_line_swap.
Qed.

Lemma debit_credit_swap_witness :
  extract (statement [DATA_HEADERS; salary; refund; balance_row "1,284.56"])
    importer
  = extract (statement [DATA_HEADERS; salary; purchase;
                        balance_row "1,284.56"]) importer.
Proof.
  refine (debit_credit_swap
            (statement [DATA_HEADERS; salary; purchase;
                        balance_row "1,284.56"])
            (statement [DATA_HEADERS; salary; refund;
                        balance_row "1,284.56"])
            importer
            [DictReader_row DATA_HEADERS salary]
            [DictReader_row DATA_HEADERS (balance_row "1,284.56")]
            (DictReader_row DATA_HEADERS purchase)
            (DictReader_row DATA_HEADERS refund)
            _ _ _ _ _ _ _ _ _ _ _);
    try (vm_compute; reflexivity); try (vm_compute; discriminate).
  repeat constructor.
Defined.

(** ** [file_date] *)

Lemma extract_stores_preamble (file_ : File) (self : CurrentAccount)
    (p : date * date * string) :
  preamble self file_ = Some p →
  same_but_closing (after_preamble self p) (extract file_ self).1.
Proof.
  intros Hp. rewrite (extract_after_preamble _ _ p Hp).
  destruct (fieldnames file_) as [names|]; [|done].
  destruct (set_ne names DATA_HEADERS); [done|]. apply extract_lines_state.
Qed.

(** X13.  [file_date] runs the whole extraction.  When it returns, the date
    it returns is the end of the period read from the second line of this
    very file, never [None] and never a date left by an earlier call; when
    the extraction raises, anywhere in the file, [file_date] raises the same
    exception.  Either way it leaves the object as [extract] does. *)
Theorem file_date_is_period_end (file_ : File) (self : CurrentAccount) :
  (∀ d, (file_date file_ self).2 = inr d →
        ∃ p, preamble self file_ = Some p ∧ d = Some p.1.2)
  ∧ (∀ e, (extract file_ self).2 = inl e → (file_date file_ self).2 = inl e)
  ∧ (file_date file_ self).1 = (extract file_ self).1.
Proof.
  unfold file_date. run.
  destruct (extract file_ self) as [self' [e|es]] eqn:E; simpl.
  - split; [done|]. split; [|done]. by intros ? [= ->].
  - split; [|done]. intros d [= <-].
    destruct (extract_returns_preamble file_ self es) as (p & Hp & _);
      [by rewrite E|].
    exists p. split; [done|].
    destruct (extract_stores_preamble _ _ _ Hp) as (_ & _ & Ht & _).
    by rewrite E in Ht.
Qed.

Lemma file_date_is_period_end_witness :
  (file_date (statement [DATA_HEADERS; purchase]) importer).2
  = inr (Some (mkdate 2023 1 31))
  ∧ (file_date (statement [DATA_HEADERS; purchase; both_row]) importer).2
    = inl (InvalidFormatError "Cannot have both debit and credit values"
             (Some 7)).
Proof.
  split.
  - destruct (proj1 (file_date_is_period_end
                       (statement [DATA_HEADERS; purchase]) importer)
                (Some (mkdate 2023 1 31))) as (p & Hp & Hd);
      vm_compute; reflexivity.
  - refine (proj1 (proj2 (file_date_is_period_end
              (statement [DATA_HEADERS; purchase; both_row]) importer)) _ _).
    vm_compute; reflexivity.
Defined.

(** ** Blank records, and the rows after a malformed one *)

(** X14.  Blank records of the table are skipped and do not advance the line
    counter: two files with the same preamble and header row whose records
    are the same once the blank ones are left out are treated alike, down to
    the line numbers in the entries and in the errors. *)
Theorem blank_records_skipped (f f' : File) (self : CurrentAccount)
    (names : list string) (recs recs' : list (list string)) :
  name f' = name f → lines f' = lines f →
  records f = names :: recs → records f' = names :: recs' →
  filter (fun r => r ≠ []) recs' = filter (fun r => r ≠ []) recs →
  extract f' self = extract f self.
Proof.
  intros Hn Hl Hr Hr' Hf.
  assert (DictReader_rows f' = DictReader_rows f) as Hrows.
  { unfold DictReader_rows. rewrite Hr, Hr'. f_equal.
    rewrite !(list_filter_iff (fun r => negb (bool_decide (r = [])))
                (fun r => r ≠ [])); [done|..].
    all: intros r; rewrite negb_True, bool_decide_spec; done. }
  apply extract_file; [done|..].
  - unfold fieldnames. by rewrite Hr, Hr'.
  - intros s. rewrite Hrows. by apply extract_lines_file.
Qed.

Lemma blank_records_skipped_witness :
  extract (statement [DATA_HEADERS; purchase; []; []; both_row; []]) importer
  = extract (statement [DATA_HEADERS; purchase; both_row]) importer
  ∧ (extract (statement [DATA_HEADERS; purchase; []; []; both_row; []])
       importer).2
    = inl (InvalidFormatError "Cannot have both debit and credit values"
             (Some 7)).
Proof.
  split; [|vm_compute; reflexivity].
  refine (blank_records_skipped
            (statement [DATA_HEADERS; purchase; both_row])
            (statement [DATA_HEADERS; purchase; []; []; both_row; []])
            importer DATA_HEADERS [purchase; both_row]
            [purchase; []; []; both_row; []] _ _ _ _ _);
    vm_compute; reflexivity.
Defined.

(** A row that raises has assigned nothing. *)
Lemma extract_line_raises (file_ : File) (lineno : nat)
    (entries : list Transaction) (line : row) (self self' : CurrentAccount)
    (e : exn) :
  extract_line file_ lineno entries line self = (self', inl e) → self' = self.
Proof.
  unfold extract_line, getitem. run.
  repeat (case_match; simplify_eq/=; try done).
  all: intros ?; by simplify_eq.
Qed.

(** X15.  [extract] stops at the first row that is not well formed.  The
    rows before it being well formed, it raises an exception that this row
    alone decides: the rows after it are not looked at, and the object is
    left with the period and old-balance text of the file and the closing
    balance of the last terminal row read before the failure, if any. *)
Theorem first_malformed_row_decides (f f' : File) (self : CurrentAccount)
    (p : date * date * string) (pre post post' : list row) (line : row)
    (kinds : list RowKind) :
  preamble self f = Some p →
  table_header_ok f = true →
  name f' = name f → lines f' = lines f → fieldnames f' = fieldnames f →
  DictReader_rows f = pre ++ line :: post →
  DictReader_rows f' = pre ++ line :: post' →
  mapM (classify (currency self)) pre = Some kinds →
  classify (currency self) line = None →
  ∃ e,
    extract f self
    = (with_closing (closing_of kinds) (after_preamble self p), inl e)
    ∧ extract f' self = extract f self.
Proof.
  intros Hp Ht Hn Hl Hf Hr Hr' Hk Hc.
  assert (preamble self f' = Some p) as Hp'.
  { revert Hp. unfold preamble, readline. by rewrite Hl. }
  assert (table_header_ok f' = true) as Ht'
    by (unfold table_header_ok in *; by rewrite Hf).
  destruct (extract_at_row _ _ _ _ _ _ _ Hp Ht Hr Hk) as [Hline He].
  destruct (extract_at_row _ _ _ _ _ _ _ Hp' Ht' Hr' Hk) as [_ He'].
  assert (records_of self f' 5 kinds = records_of self f 5 kinds) as Hrec.
  { clear -Hn. generalize 5. unfold transaction_record.
    induction kinds as [|[c|a d q] kinds IH]; intros n; simpl; [done|auto|].
    unfold transaction_record. by rewrite Hn, IH. }
  rewrite Hrec, (extract_line_file f f') in He' by done.
  set (self1 := with_closing (closing_of kinds) (after_preamble self p)) in *.
  assert (currency self1 = currency self) as Hcur
    by by unfold self1; destruct (closing_of kinds).
  pose proof (extract_line_state f (6 + length pre)
                (records_of self f 5 kinds) line self1) as Hs.
  destruct (extract_line f _ _ line self1) as [self2 [e|es]] eqn:E.
  - exists e. rewrite He', He. split; [|done]. f_equal.
    by apply extract_line_raises in E.
  - apply extract_line_returns in E as [k Hk']; [|done].
    rewrite Hcur, Hc in Hk'. done.
Qed.

Lemma first_malformed_row_decides_witness :
  ∃ e,
    extract (statement [DATA_HEADERS; purchase; dollar_row; salary]) importer
    = (with_closing None
         (after_preamble importer
            (mkdate 2023 1 1, mkdate 2023 1 31,
             "Old balance:;;;;1,234.56;EUR")),
       inl e)
    ∧ extract (statement [DATA_HEADERS; purchase; dollar_row; both_row;
                          neither_row]) importer
      = extract (statement [DATA_HEADERS; purchase; dollar_row; salary])
          importer.
Proof.
  refine (first_malformed_row_decides
            (statement [DATA_HEADERS; purchase; dollar_row; salary])
            (statement [DATA_HEADERS; purchase; dollar_row; both_row;
                        neither_row])
            importer
            (mkdate 2023 1 1, mkdate 2023 1 31,
             "Old balance:;;;;1,234.56;EUR")
            [DictReader_row DATA_HEADERS purchase]
            [DictReader_row DATA_HEADERS salary]
            [DictReader_row DATA_HEADERS both_row;
             DictReader_row DATA_HEADERS neither_row]
            (DictReader_row DATA_HEADERS dollar_row)
            [TransactionRow (Finite false 5000 (-2)) (mkdate 2023 1 5) "Acme"]
            _ _ _ _ _ _ _ _ _);
    vm_compute; reflexivity.
Defined.

(** ** [format_number] *)

Lemma remove_char_app (c : ascii) (s1 s2 : string) :
  remove_char c (s1 +:+ s2) = remove_char c s1 +:+ remove_char c s2.
Proof.
  induction s1 as [|a s1 IH]; [done|]. rewrite append_cons. simpl.
  destruct (Ascii.eqb a c); [done|]. by rewrite append_cons, IH.
Qed.

Lemma remove_char_twice (c : ascii) (s : string) :
  remove_char c (remove_char c s) = remove_char c s.
Proof.
  induction s as [|a s IH]; [done|]. simpl.
  destruct (Ascii.eqb a c) eqn:E; [done|]. simpl. by rewrite E, IH.
Qed.

(** X16.  [format_number] drops every comma before the text reaches
    [Decimal]: a comma put in, wherever it is put, changes neither the
    decimal returned nor the exception raised, and text whose commas have
    been dropped already gives the same.  It raises [AttributeError] exactly
    when it is given [None]; any other failure is the [InvalidOperation] of
    the decimal module. *)
Theorem format_number_commas :
  (∀ s1 s2,
     format_number (Some (s1 +:+ "," +:+ s2))
     = format_number (Some (s1 +:+ s2)))
  ∧ (∀ s, format_number (Some (remove_char "," s)) = format_number (Some s))
  ∧ (∀ v, format_number v = inl AttributeError ↔ v = None)
  ∧ (∀ v e, format_number v = inl e →
            e = AttributeError ∨ e = InvalidOperation).
Proof.
  split; [|split; [|split]].
  - intros s1 s2. unfold format_number.
    by rewrite !remove_char_app.
  - intros s. unfold format_number. by rewrite remove_char_twice.
  - intros [s|]; unfold format_number; [|done].
    by destruct (Decimal_of_string _).
  - apply format_number_error.
Qed.

(** ** The old-balance line *)

Lemma at_dollar_plain (rest : string) :
  at_dollar false rest = true ↔ rest = "" ∨ rest = String newline "".
Proof.
  destruct rest as [|c [|c' rest]]; simpl.
  - split; auto.
  - rewrite andb_true_r, Ascii.eqb_eq. split.
    + intros ->. auto.
    + by intros [[=]|[= ->]].
  - rewrite andb_false_r. split; [done|]. by intros [[=]|[=]].
Qed.

Lemma Matches_old_balance (branch number account cur enc p : string) :
  Matches
    (body (_starting_balance_regex (init branch number account cur enc))) p
  ↔ old_balance_text cur p.
Proof.
  unfold old_balance_text.
  cbn [init _starting_balance_regex body space]. split.
  - intros (? & ? & -> & ->%Matches_Lit & H)%Matches_Seq.
    apply Matches_Seq in H as (? & ? & -> & (w & -> & Hw)%Matches_Sym & H).
    apply Matches_Seq in H as (? & ? & -> & ->%Matches_Lit & H).
    apply Matches_Seq in H as (a1 & ? & -> & Ha1 & H).
    apply Matches_Seq in H as (a2 & ? & -> & Ha2 & H).
    apply Matches_Seq in H as (? & ? & -> & (c & -> & Hc)%Matches_Sym & H).
    apply Matches_Seq in H as (? & ? & -> & (d1 & -> & H1)%Matches_Sym & H).
    apply Matches_Seq in H as (? & ? & -> & (d2 & -> & H2)%Matches_Sym & H).
    apply Matches_Seq in H as (? & ? & -> & ->%Matches_Lit & ->%Matches_Lit).
    exists w, c, d1, d2, (a1 +:+ a2).
    split; [by rewrite !append_cons, !append_nil_l, !append_assoc|].
    split; [done|]. split; [apply accepts_Matches; by constructor|].
    split; [|done]. simpl in Hc. apply negb_true_iff in Hc.
    by apply Ascii.eqb_neq in Hc.
  - intros (w & c & d1 & d2 & amount & -> & Hw & Ha & Hc & H1 & H2).
    apply accepts_Matches, Matches_Seq in Ha as (a1 & a2 & -> & Ha1 & Ha2).
    apply Matches_Seq. eexists _, _. split; [done|].
    split; [by apply Matches_Lit|].
    change (String w "balance:;;;;" +:+ ?t)
      with (String w "" +:+ "balance:;;;;" +:+ t).
    apply MSeq; [by constructor|].
    apply MSeq; [by apply Matches_Lit|].
    rewrite append_assoc.
    apply MSeq; [done|]. apply MSeq; [done|].
    change (String c (String d1 (String d2 ";")) +:+ cur)
      with (String c "" +:+ String d1 "" +:+ String d2 "" +:+ ";" +:+ cur).
    apply MSeq.
    { constructor. simpl. apply negb_true_iff. by apply Ascii.eqb_neq. }
    apply MSeq; [by constructor|]. apply MSeq; [by constructor|].
    apply MSeq; by apply Matches_Lit.
Qed.

(** X17.  The lines that the old-balance pattern accepts, for an importer
    constructed with the currency [cur]: the text ["Old balance:;;;;"] (with
    any one whitespace character for the blank), an amount of digits in
    groups separated by commas, groups of any length, then any one character
    that is not a newline where the decimal point is expected, two digits, a
    semicolon and the currency; a newline may follow.  Nothing else is
    accepted. *)
Theorem old_balance_line_accepted
    (branch number account cur enc : string) (line : string) :
  is_Some (re_match
             (_starting_balance_regex (init branch number account cur enc))
             line)
  ↔ ∃ p rest,
      line = p +:+ rest
      ∧ old_balance_text cur p
      ∧ (rest = "" ∨ rest = String newline "").
Proof.
  unfold re_match. rewrite span_is_Some.
  change (multiline (_starting_balance_regex _)) with false.
  by setoid_rewrite Matches_old_balance; setoid_rewrite at_dollar_plain.
Qed.

Lemma old_balance_line_accepted_witness :
  is_Some (re_match (_starting_balance_regex importer)
             "Old balance:;;;;12,3456,7x89;EUR").
Proof.
  apply (proj2 (old_balance_line_accepted "100" "1234567"
                  "Assets:DB:Current" "EUR" "utf-8"
                  "Old balance:;;;;12,3456,7x89;EUR")).
  exists "Old balance:;;;;12,3456,7x89;EUR", "".
  split; [reflexivity|]. split; [|by left].
  exists " "%char, "x"%char, "8"%char, "9"%char, "12,3456,7".
  repeat split; try (vm_compute; reflexivity). vm_compute. discriminate.
Defined.

(** ** The period *)

Lemma span_Some (ml : bool) (s : string) :
  ∀ r p, span ml r s = Some p →
         ∃ rest, s = p +:+ rest ∧ Matches r p ∧ at_dollar ml rest = true.
Proof.
  induction s as [|c s IH]; intros r p.
  - simpl. destruct (nullable r) eqn:En; simpl; [|done].
    intros [= <-]. exists "". by rewrite <- nullable_Matches.
  - rewrite span_cons.
    destruct (nullable r && at_dollar ml (String c s)) eqn:En.
    + intros [= <-]. apply andb_true_iff in En as [En Hd].
      exists (String c s). by rewrite <- nullable_Matches.
    + destruct (span ml (deriv c r) s) as [q|] eqn:E; [|done].
      intros [= <-]. apply IH in E as (rest & -> & Hm & Hd).
      exists rest. by rewrite <- deriv_Matches.
Qed.

Lemma length_append (s1 s2 : string) :
  String.length (s1 +:+ s2) = String.length s1 + String.length s2.
Proof.
  induction s1 as [|c s1 IH]; [done|]. rewrite append_cons. simpl.
  by rewrite IH.
Qed.

(** A date of the period line is ten characters long. *)
Lemma Matches_date_regex (a : string) :
  Matches date_regex a →
  ∃ c1 c2 c3 c4 c5 c6 c7 c8 : ascii,
    a = String c1 (String c2 (String "/" (String c3 (String c4 (String "/"
          (String c5 (String c6 (String c7 (String c8 ""))))))))).
Proof.
  unfold date_regex, digit.
  intros (? & ? & -> & (c1 & -> & _)%Matches_Sym & H)%Matches_Seq.
  apply Matches_Seq in H as (? & ? & -> & (c2 & -> & _)%Matches_Sym & H).
  apply Matches_Seq in H as (? & ? & -> & ->%Matches_Lit & H).
  apply Matches_Seq in H as (? & ? & -> & (c3 & -> & _)%Matches_Sym & H).
  apply Matches_Seq in H as (? & ? & -> & (c4 & -> & _)%Matches_Sym & H).
  apply Matches_Seq in H as (? & ? & -> & ->%Matches_Lit & H).
  apply Matches_Seq in H as (? & ? & -> & (c5 & -> & _)%Matches_Sym & H).
  apply Matches_Seq in H as (? & ? & -> & (c6 & -> & _)%Matches_Sym & H).
  apply Matches_Seq in H as (? & ? & -> & (c7 & -> & _)%Matches_Sym & H).
  apply Matches_Sym in H as (c8 & -> & _).
  by exists c1, c2, c3, c4, c5, c6, c7, c8.
Qed.

Lemma re_match_period (branch number : string) (self : CurrentAccount)
    (a b : string) :
  constructed branch number self →
  accepts date_regex a = true → accepts date_regex b = true →
  re_match (_from_to_regex self) (a +:+ " - " +:+ b)
  = Some (a +:+ " - " +:+ b)
  ∧ substring 0 10 (a +:+ " - " +:+ b) = a
  ∧ substring 13 10 (a +:+ " - " +:+ b) = b.
Proof.
  intros (acc & cur & enc & [= _ _ _ _ Hr _]) Ha%accepts_Matches
    Hb%accepts_Matches.
  rewrite Hr. unfold re_match. cbn [init _from_to_regex body multiline].
  assert (Matches (Seq date_regex (Seq (Lit " - ") date_regex))
            (a +:+ " - " +:+ b)) as Hm.
  { apply MSeq; [done|]. apply MSeq; [by apply Matches_Lit|done]. }
  split.
  - change (span false (Seq date_regex (Seq (Lit " - ") date_regex))
              (a +:+ " - " +:+ b) = Some (a +:+ " - " +:+ b)).
    destruct (span false (Seq date_regex (Seq (Lit " - ") date_regex))
                (a +:+ " - " +:+ b)) as [p|] eqn:E.
    + apply span_Some in E as (rest & Hs & Hp & _).
      apply Matches_Seq in Hp as (a' & ? & -> & Ha' & Hp).
      apply Matches_Seq in Hp as (? & b' & -> & ->%Matches_Lit & Hb').
      assert (String.length rest = 0) as Hl.
      { apply (f_equal String.length) in Hs.
        apply Matches_date_regex in Ha
          as (?&?&?&?&?&?&?&? & ->).
        apply Matches_date_regex in Hb
          as (?&?&?&?&?&?&?&? & ->).
        apply Matches_date_regex in Ha'
          as (?&?&?&?&?&?&?&? & ->).
        apply Matches_date_regex in Hb'
          as (?&?&?&?&?&?&?&? & ->).
        rewrite !length_append in Hs. simpl in Hs. lia. }
      destruct rest; [|done]. by rewrite append_nil_r in Hs; rewrite Hs.
    + assert (is_Some (span false
                         (Seq date_regex (Seq (Lit " - ") date_regex))
                         (a +:+ " - " +:+ b))) as [? Hs]; [|congruence].
      apply span_is_Some. exists (a +:+ " - " +:+ b), "".
      by rewrite append_nil_r.
  - apply Matches_date_regex in Ha as (?&?&?&?&?&?&?&? & ->).
    apply Matches_date_regex in Hb as (?&?&?&?&?&?&?&? & ->).
    done.
Qed.

(** X18.  [extract] does not compare the two dates of the period line.  When
    the header line is accepted and the second line is two dates of the
    calendar, each written [MM/DD/YYYY], with [" - "] between them, the first
    is stored as the start and the second as the end of the period, in
    whatever order they are, and they stay stored whatever the rest of the
    file holds. *)
Theorem period_not_ordered (file_ : File) (self : CurrentAccount)
    (branch number : string) (a b : string) (d1 d2 : date) :
  constructed branch number self →
  is_Some (re_match (_expected_header_regex self) (strip (readline file_ 0))) →
  strip (readline file_ 1) = a +:+ " - " +:+ b →
  accepts date_regex a = true → accepts date_regex b = true →
  strptime a = Some d1 → strptime b = Some d2 →
  _date_from (extract file_ self).1 = Some d1
  ∧ _date_to (extract file_ self).1 = Some d2.
Proof.
  intros Hc Hh%(bool_decide_eq_true_2 _) Hl Ha Hb Hd1 Hd2.
  destruct (re_match_period branch number self a b Hc Ha Hb)
    as (Hm & Hs1 & Hs2).
  destruct (constructed_ngroups _ _ _ Hc) as [Hg Hg'].
  unfold extract, next_line. run.
  rewrite Hh, Hl, Hm, Hg, Hs1, Hs2, Hd1, Hd2. simpl.
  destruct (re_match (_starting_balance_regex self) _) as [old|]; [|done].
  destruct (negb _); [done|]. simpl.
  destruct (negb _); [done|].
  destruct (fieldnames file_) as [names|]; [|done].
  destruct (set_ne names DATA_HEADERS); [done|].
  match goal with
  | |- context [extract_lines ?f ?n ?es ?rows ?s] =>
      by destruct (extract_lines_state f rows n es s) as (_ & -> & -> & _)
  end.
Qed.

Lemma period_not_ordered_witness :
  let file_ :=
    file_of [header_line; "12/31/2023 - 01/01/2023" +:+ nl; balance_line;
             pending_line] [DATA_HEADERS; purchase] in
  _date_from (extract file_ importer).1 = Some (mkdate 2023 12 31)
  ∧ _date_to (extract file_ importer).1 = Some (mkdate 2023 1 1).
Proof.
  refine (period_not_ordered
            (file_of [header_line; "12/31/2023 - 01/01/2023" +:+ nl;
                      balance_line; pending_line] [DATA_HEADERS; purchase])
            importer "100" "1234567" "12/31/2023" "01/01/2023"
            (mkdate 2023 12 31) (mkdate 2023 1 1) _ _ _ _ _ _ _);
    try (vm_compute; reflexivity).
  - exists "Assets:DB:Current", "EUR", "utf-8". reflexivity.
  - vm_compute. eauto.
Defined.

(** ** [file_account] and [identify] beside [extract] *)

(** X19.  The account that [file_account] reports is the one given at
    construction, for every file; [extract] never changes it, and every
    posting of every entry that [extract] returns is made to it. *)
Theorem file_account_of_postings (file_ other : File) (self : CurrentAccount) :
  file_account (extract file_ self).1 other = file_account self file_
  ∧ ∀ entries, (extract file_ self).2 = inr entries →
      Forall (fun t => Forall (fun q => paccount q = file_account self file_)
                         (postings t))
        entries.
Proof.
  split.
  - unfold file_account.
    by pose proof (extract_configuration self file_) as [= -> _ _ _ _ _].
  - intros entries (p & kinds & _ & _ & _ & ->)%extract_returns_kinds.
    eapply Forall_impl; [apply (records_of_emitted self file_ kinds 5)|].
    intros t [(_ & _ & _ & _ & _ & amount & ->) _].
    by repeat constructor.
Qed.

Lemma file_account_of_postings_witness :
  let file_ := statement [DATA_HEADERS; purchase; salary] in
  Forall (fun t => Forall (fun q => paccount q = "Assets:DB:Current")
                     (postings t))
    [ transaction_record importer file_ 6
        (Finite false 5000 (-2)) (mkdate 2023 1 5) "Acme";
      transaction_record importer file_ 7
        (Finite false 110000 (-2)) (mkdate 2023 1 27) "Employer" ].
Proof.
  refine (proj2 (file_account_of_postings
                   (statement [DATA_HEADERS; purchase; salary])
                   (statement []) importer) _ _).
  vm_compute; reflexivity.
Defined.

Lemma at_dollar_append (r rest : string) :
  at_dollar true r = true → at_dollar true rest = true →
  at_dollar true (r +:+ rest) = true.
Proof. destruct r as [|c r]; [done|]. rewrite append_cons. simpl. auto. Qed.

(** X20.  [identify] and the header check of [extract] agree on files that
    begin with their header line.  When the raw content begins with the text
    that [extract] takes for the first line (the line stripped), and that
    text is followed by the end of the content or a newline, a header that
    [extract] accepts is also identified. *)
Theorem accepted_header_is_identified (file_ : File) (self : CurrentAccount)
    (branch number rest : string) :
  constructed branch number self →
  contents file_ = strip (readline file_ 0) +:+ rest →
  at_dollar true rest = true →
  is_Some (re_match (_expected_header_regex self) (strip (readline file_ 0))) →
  is_Some (identify self file_).
Proof.
  unfold identify, re_match.
  intros (a & c & e & [= _ _ _ -> _ _]) -> Hrest.
  change (multiline (_expected_header_regex _)) with true.
  rewrite !span_is_Some. intros (p & r & -> & Hm & Hr).
  exists p, (r +:+ rest). rewrite append_assoc. split; [done|].
  split; [done|]. by apply at_dollar_append.
Qed.

Lemma accepted_header_is_identified_witness :
  is_Some (identify importer (statement [DATA_HEADERS; purchase])).
Proof.
  refine (accepted_header_is_identified
            (statement [DATA_HEADERS; purchase]) importer
            "100" "1234567"
            (nl +:+ period_line +:+ balance_line +:+ pending_line
             +:+ join nl (join ";" <$> [DATA_HEADERS; purchase])) _ _ _ _).
  - exists "Assets:DB:Current", "EUR", "utf-8". reflexivity.
  - vm_compute; reflexivity.
  - reflexivity.
  - vm_compute. eauto.
Defined.

(** ** What [extract] leaves on the importer object: the closing balance *)

(** C9 (as stated, refuted).  The period and the balances are on the
    importer object after [extract] has returned, and they are still there
    after a later call that failed on its first line. *)
Lemma no_state_persists_counterexample :
  let file_ := statement [DATA_HEADERS; purchase; balance_row "1,284.56"] in
  let other := mkFile "other.csv" "" ["Depot 7" +:+ nl] [] in
  let self' := (extract file_ importer).1 in
  accumulated importer = (None, None, None, None)
  ∧ accumulated self'
    = (Some (mkdate 2023 1 1), Some (mkdate 2023 1 31),
       Some "Old balance:;;;;1,234.56;EUR", Some (Finite false 128456 (-2)))
  ∧ accumulated self' ≠ accumulated importer
  ∧ (extract other self').2
    = inl (InvalidFormatError "Unexpected header 'Depot 7'" (Some 1))
  ∧ accumulated (extract other self').1 = accumulated self'.
Proof. vm_compute. repeat split; discriminate. Qed.

(** C9 (amended).  [extract] never changes the configuration given at
    construction (account, currency, encoding and the patterns compiled from
    branch, number and currency).  The period and the opening balance,
    however, are written to the importer object as soon as the preamble is
    read, and the closing balance when a terminal row is read; they are
    there after the call, whether it returns or fails later on: the object
    holds the closing balance of the last terminal row among the well-formed
    rows read, up to the end of the table when the call returns and up to
    the first row that is not well formed when it fails.  [file_date] reads
    the end of the period from the object. *)
Theorem extract_keeps_configuration_stores_results
    (self : CurrentAccount) (file_ : File) :
  configuration (extract file_ self).1 = configuration self
  ∧ ∀ p, preamble self file_ = Some p →
      _date_from (extract file_ self).1 = Some p.1.1
      ∧ _date_to (extract file_ self).1 = Some p.1.2
      ∧ _starting_balance (extract file_ self).1 = Some p.2
      ∧ ((file_date file_ self).2
         = match (extract file_ self).2 with
           | inl e => inl e
           | inr _ => inr (Some p.1.2)
           end)
      ∧ ∀ pre post kinds,
          table_header_ok file_ = true →
          DictReader_rows file_ = pre ++ post →
          mapM (classify (currency self)) pre = Some kinds →
          head post ≫= classify (currency self) = None →
          _finishing_balance (extract file_ self).1
          = match last (closings kinds) with
            | Some closing => Some closing
            | None => _finishing_balance self
            end
          ∧ ((∃ entries, (extract file_ self).2 = inr entries) ↔ post = []).
Proof.
  split; [apply extract_configuration|].
  intros p Hp.
  assert (same_but_closing (after_preamble self p) (extract file_ self).1)
    as (_ & Hf & Ht & Hs).
  { rewrite (extract_after_preamble _ _ p Hp).
    destruct (fieldnames file_) as [names|]; [|done].
    destruct (set_ne names DATA_HEADERS); [done|].
    apply extract_lines_state. }
  split; [done|]. split; [done|]. split; [done|]. split.
  { unfold file_date. run.
    destruct (extract file_ self) as [self' [e|es]]; simpl in *; [done|].
    by rewrite Ht. }
  clear Hf Ht Hs. intros pre post kinds Hh Hr Hk Hc.
  assert (_finishing_balance
            (with_closing (closing_of kinds) (after_preamble self p))
          = match last (closings kinds) with
            | Some closing => Some closing
            | None => _finishing_balance self
            end) as Hb.
  { rewrite closing_of_last. by destruct (last (closings kinds)). }
  destruct post as [|line post].
  - rewrite app_nil_r in Hr. rewrite <- Hr in Hk.
    rewrite (extract_classified _ _ p kinds Hp Hh Hk). simpl.
    split; [done|]. split; [done|]. by eexists.
  - simpl in Hc.
    destruct (extract_at_row _ _ _ _ _ _ _ Hp Hh Hr Hk) as [Hline He].
    set (self1 := with_closing (closing_of kinds) (after_preamble self p)) in *.
    assert (currency self1 = currency self) as Hcur
      by by unfold self1; destruct (closing_of kinds).
    destruct (extract_line file_ _ _ line self1) as [self2 [e|es]] eqn:E.
    + apply extract_line_raises in E as ->. rewrite He. simpl.
      split; [done|]. split; [by intros [es [=]]|done].
    + apply extract_line_returns in E as [k Hk']; [|done].
      rewrite Hcur, Hc in Hk'. done.
Qed.

Lemma extract_keeps_configuration_stores_results_witness :
  let file_ :=
    statement [DATA_HEADERS; purchase; balance_row "1,284.56"; both_row] in
  (extract file_ importer).2
  = inl (InvalidFormatError "Cannot have both debit and credit values"
           (Some 8))
  ∧ _date_from (extract file_ importer).1 = Some (mkdate 2023 1 1)
  ∧ _date_to (extract file_ importer).1 = Some (mkdate 2023 1 31)
  ∧ _starting_balance (extract file_ importer).1
    = Some "Old balance:;;;;1,234.56;EUR"
  ∧ (file_date file_ importer).2
    = inl (InvalidFormatError "Cannot have both debit and credit values"
             (Some 8))
  ∧ _finishing_balance importer = None
  ∧ _finishing_balance (extract file_ importer).1
    = Some (Finite false 128456 (-2)).
Proof.
  intros file_.
  assert (preamble importer file_
          = Some (mkdate 2023 1 1, mkdate 2023 1 31,
                  "Old balance:;;;;1,234.56;EUR")) as Hp
    by (vm_compute; reflexivity).
  assert ((extract file_ importer).2
          = inl (InvalidFormatError "Cannot have both debit and credit values"
                   (Some 8))) as He
    by (vm_compute; reflexivity).
  destruct (proj2 (extract_keeps_configuration_stores_results importer file_)
              _ Hp) as (Hfrom & Hto & Hstart & Hdate & Hclosing).
  split; [exact He|]. split; [exact Hfrom|]. split; [exact Hto|].
  split; [exact Hstart|]. split; [by rewrite Hdate, He|].
  split; [reflexivity|].
  refine (proj1 (Hclosing
            [DictReader_row DATA_HEADERS purchase;
             DictReader_row DATA_HEADERS (balance_row "1,284.56")]
            [DictReader_row DATA_HEADERS both_row]
            [TransactionRow (Finite false 5000 (-2)) (mkdate 2023 1 5) "Acme";
             TerminalRow (Finite false 128456 (-2))]
            _ _ _ _));
    vm_compute; reflexivity.
Defined.
